(** * Dew heater controller

    A shallow embedding of the control loop of the dew heater controller
    ([Dew_Heater_Controller.py] and the [dew_heater_controller] package) and
    the properties of its decision logic.

    Conventions of the embedding.
    - A Python [float] is an IEEE-754 binary64 number: Rocq's primitive
      [float], whose operations round exactly as CPython's do.
    - A [datetime] is an integer count of microseconds (its resolution), a
      [timedelta] an integer number of microseconds.
    - The shared [ControllerState] object is threaded through a small
      state-and-trace monad: every call that leaves the process (a GPIO
      write, a CSV line) or that changes a timer is recorded in the trace.
    - The decimal constants of the source (17.27, 237.7) denote the nearest
      binary64 value, as they do in Python. *)

From Stdlib Require Import String ZArith List Bool Lia Floats Reals Lra.
Import ListNotations.

Set Warnings "-inexact-float".

(** ** The Python runtime: exceptions, float division, [math.log] *)

Module Py.

Inductive exn : Type :=
| ValueError          (* "math domain error" *)
| ZeroDivisionError.  (* "float division by zero" *)

Inductive result (A : Type) : Type :=
| Ok (a : A)
| Raise (e : exn).

Arguments Ok {A} a.
Arguments Raise {A} e.

Definition bind {A B : Type} (r : result A) (k : A -> result B) : result B :=
  match r with
  | Ok a => k a
  | Raise e => Raise e
  end.

(** [x / y] on floats raises when the divisor compares equal to zero
    (either sign); every other case is the IEEE quotient. *)
Definition truediv (x y : float) : result float :=
  if (y =? 0)%float then Raise ZeroDivisionError else Ok (x / y)%float.

(** [math.log] of one argument.  For a finite positive argument CPython
    calls the C library's [log], here the parameter [libm_log]; a finite
    argument that is zero or negative, and minus infinity, are domain
    errors; NaN and plus infinity are returned unchanged.  The wrapper then
    turns a NaN result of a non-NaN argument, and an infinite result of a
    finite argument, into a [ValueError]. *)
Definition m_log (libm_log : float -> float) (x : float) : float * bool :=
  if is_finite x then
    if (0 <? x)%float then (libm_log x, false) else (nan, true)
  else if is_nan x then (x, false)
  else if (0 <? x)%float then (x, false)
  else (nan, true).

Definition math_log (libm_log : float -> float) (x : float) : result float :=
  let '(r, edom) := m_log libm_log x in
  if edom then Raise ValueError
  else if is_nan r && negb (is_nan x) then Raise ValueError
  else if is_infinity r && is_finite x then Raise ValueError
  else Ok r.

End Py.

Notation "x <- c1 ;;; c2" := (Py.bind c1 (fun x => c2))
  (at level 61, c1 at next level, right associativity).

(** ** [metrics.py] *)

(** [dew_point_c]: the Magnus approximation on binary64 floats, with the
    exceptions Python raises. *)
Definition dew_point_c (libm_log : float -> float) (temp_c humidity : float)
  : Py.result float :=
  let a := 17.27%float in
  let b := 237.7%float in
  q <- Py.truediv (a * temp_c) (b + temp_c) ;;;
  l <- Py.math_log libm_log (humidity / 100)%float ;;;
  let gamma := (q + l)%float in
  Py.truediv (b * gamma) (a - gamma).

(** The same formula read over the real numbers, without rounding: the
    quantities whose sign decides whether a division by zero occurs, and
    the value computed.  [ln] is the natural logarithm of the reals. *)
Module Exact.

Definition a : R := 1727 / 100.
Definition b : R := 2377 / 10.

Definition gamma (temp_c humidity : R) : R :=
  (a * temp_c / (b + temp_c)) + ln (humidity / 100).

Definition dew_point_c (temp_c humidity : R) : R :=
  (b * gamma temp_c humidity) / (a - gamma temp_c humidity).


End Exact.

(** ** Time *)

Definition datetime : Type := Z.   (* microseconds *)
Definition timedelta : Type := Z.  (* microseconds *)

Definition minutes (n : Z) : timedelta := (n * 60 * 1000000)%Z.

(** ** [config.py]: the tunable values the control loop imports *)

Record Config : Type := {
  HYSTERESIS_C : float;
  AMBIENT_TEMP_OFFSET_C : float;
  FORCE_RUN_TEMP_DIFF_C : float;
  FORCE_RUN_DURATION : timedelta;
  FORCE_RUN_COOLDOWN : timedelta
}.

(** The values used when no environment variable overrides them. *)
Definition default_config : Config := {|
  HYSTERESIS_C := 5.0;
  AMBIENT_TEMP_OFFSET_C := 5.0;
  FORCE_RUN_TEMP_DIFF_C := 6.0;
  FORCE_RUN_DURATION := minutes 30;
  FORCE_RUN_COOLDOWN := minutes 60
|}.

(** ** The weather dictionary of [weather.py], as the control loop reads it *)

(** The ["sunrise"] and ["sunset"] entries: absent (or empty), a string
    [datetime.fromisoformat] rejects, or a string it parses. *)
Inductive iso_string : Type :=
| NoString
| BadString
| IsoString (t : datetime).

Module Weather.
Record t : Type := {
  temperature_c : option float;
  dew_point_c : option float;
  sunrise : iso_string;
  sunset : iso_string
}.
End Weather.

(** ** [state.py]: [ControllerState] *)

Inductive Mode : Type := auto | manual.

Record ControllerState : Type := {
  mode : Mode;
  manual_on : bool;
  relay_on : bool;
  weather : option Weather.t;
  auto_run_until : option datetime;
  auto_cooldown_until : option datetime
}.

(** [ControllerState.__init__] *)
Definition init_state : ControllerState := {|
  mode := auto;
  manual_on := false;
  relay_on := false;
  weather := None;
  auto_run_until := None;
  auto_cooldown_until := None
|}.

(** What one poll cycle does besides changing [ControllerState]. *)
Inductive Effect : Type :=
| GpioOutput (high : bool)                       (* GPIO.output(RELAY_PIN, ...) *)
| StartForcedRun (run_until cooldown_until : datetime)
| ClearForcedRun
| ClearCooldown
| LogEvent (relay : bool)                        (* log_event(...) *)
| LogReading (relay : bool)                      (* log_reading(...) *)
| Publish (relay : bool) (m : Mode) (manual_target : bool).

(** Computations over the shared state that also emit effects. *)
Definition M (A : Type) : Type :=
  ControllerState -> A * ControllerState * list Effect.

Definition ret {A : Type} (a : A) : M A := fun s => (a, s, []).

Definition mbind {A B : Type} (c : M A) (k : A -> M B) : M B :=
  fun s =>
    let '(a, s1, t1) := c s in
    let '(b, s2, t2) := k a s1 in
    (b, s2, t1 ++ t2).

Definition emit (e : Effect) : M unit := fun s => (tt, s, [e]).

Notation "x <- c1 ;; c2" := (mbind c1 (fun x => c2))
  (at level 61, c1 at next level, right associativity).
Notation "c1 ;; c2" := (mbind c1 (fun _ => c2))
  (at level 61, right associativity).

Definition result_of {A : Type} (r : A * ControllerState * list Effect) : A :=
  fst (fst r).
Definition state_of {A : Type} (r : A * ControllerState * list Effect)
  : ControllerState := snd (fst r).
Definition trace_of {A : Type} (r : A * ControllerState * list Effect)
  : list Effect := snd r.

(** The methods of [ControllerState] the loop and the web handlers call. *)
Definition snapshot : M ControllerState := fun s => (s, s, []).

Definition set_mode (m : Mode) (manual_target : option bool) : M unit :=
  fun s =>
    (tt,
     {| mode := m;
        manual_on := match manual_target with
                     | Some v => v
                     | None => manual_on s
                     end;
        relay_on := relay_on s;
        weather := weather s;
        auto_run_until := auto_run_until s;
        auto_cooldown_until := auto_cooldown_until s |},
     []).

Definition set_manual_on (v : bool) : M unit :=
  fun s =>
    (tt,
     {| mode := mode s; manual_on := v; relay_on := relay_on s;
        weather := weather s;
        auto_run_until := auto_run_until s;
        auto_cooldown_until := auto_cooldown_until s |},
     []).

Definition update_relay (v : bool) : M unit :=
  fun s =>
    (tt,
     {| mode := mode s; manual_on := manual_on s; relay_on := v;
        weather := weather s;
        auto_run_until := auto_run_until s;
        auto_cooldown_until := auto_cooldown_until s |},
     []).

Definition update_weather (w : option Weather.t) : M unit :=
  fun s =>
    (tt,
     {| mode := mode s; manual_on := manual_on s; relay_on := relay_on s;
        weather := w;
        auto_run_until := auto_run_until s;
        auto_cooldown_until := auto_cooldown_until s |},
     []).

Definition start_forced_run (run_until cooldown_until : datetime) : M unit :=
  fun s =>
    (tt,
     {| mode := mode s; manual_on := manual_on s; relay_on := relay_on s;
        weather := weather s;
        auto_run_until := Some run_until;
        auto_cooldown_until := Some cooldown_until |},
     [StartForcedRun run_until cooldown_until]).

Definition clear_forced_run : M unit :=
  fun s =>
    (tt,
     {| mode := mode s; manual_on := manual_on s; relay_on := relay_on s;
        weather := weather s;
        auto_run_until := None;
        auto_cooldown_until := auto_cooldown_until s |},
     [ClearForcedRun]).

Definition clear_cooldown : M unit :=
  fun s =>
    (tt,
     {| mode := mode s; manual_on := manual_on s; relay_on := relay_on s;
        weather := weather s;
        auto_run_until := auto_run_until s;
        auto_cooldown_until := None |},
     [ClearCooldown]).

Definition get_timers : M (option datetime * option datetime) :=
  fun s => ((auto_run_until s, auto_cooldown_until s), s, []).

(** ** [Dew_Heater_Controller.py] *)

(** [set_relay]: the hardware write, then the state update. *)
Definition set_relay (state_on : bool) : M unit :=
  emit (GpioOutput state_on) ;; update_relay state_on.

(** One valid sensor reading with its dew point, the clock and the weather
    the fetcher returned for this poll. *)
Record Poll : Type := {
  temp_c : float;
  humidity : float;
  dew_c : float;
  now_dt : datetime;
  fetched : option Weather.t
}.

(** [sunrise_dt] and [sunset_dt]: an exception while parsing either string
    resets both. *)
Definition sun_times (w : option Weather.t) : option datetime * option datetime :=
  match w with
  | None => (None, None)
  | Some d =>
      match Weather.sunrise d, Weather.sunset d with
      | BadString, _ => (None, None)
      | _, BadString => (None, None)
      | sr, ss =>
          (match sr with IsoString t => Some t | _ => None end,
           match ss with IsoString t => Some t | _ => None end)
      end
  end.

Definition ambient_dew_c (p : Poll) : option float :=
  match fetched p with Some d => Weather.dew_point_c d | None => None end.

Definition ambient_temp_c (p : Poll) : option float :=
  match fetched p with Some d => Weather.temperature_c d | None => None end.

Definition threshold_temp (cfg : Config) (p : Poll) : float :=
  (temp_c p - AMBIENT_TEMP_OFFSET_C cfg)%float.

Definition baseline_dew (p : Poll) : float :=
  match ambient_dew_c p with Some d => d | None => dew_c p end.

Definition should_turn_on (cfg : Config) (p : Poll) : bool :=
  (threshold_temp cfg p <? baseline_dew p)%float.

Definition should_turn_off (cfg : Config) (p : Poll) : bool :=
  (baseline_dew p + HYSTERESIS_C cfg <? threshold_temp cfg p)%float.

Definition runtime (startup_time : datetime) (p : Poll) : timedelta :=
  (now_dt p - startup_time)%Z.

Definition auto_ready (startup_time : datetime) (p : Poll) : bool :=
  (minutes 15 <=? runtime startup_time p)%Z.

(** [t and now_dt >= t]: the timer is set and has run out. *)
Definition due (now : datetime) (t : option datetime) : bool :=
  match t with Some u => (u <=? now)%Z | None => false end.

(** The local [run_until] / [cooldown_until] once the expiry test has run. *)
Definition unexpired (now : datetime) (t : option datetime) : option datetime :=
  if due now t then None else t.

(** [t is not None and now_dt < t] *)
Definition running (now : datetime) (t : option datetime) : bool :=
  match t with Some u => (now <? u)%Z | None => false end.

Definition daylight_block (sunrise_dt sunset_dt : option datetime)
    (now : datetime) : bool :=
  match sunrise_dt, sunset_dt with
  | Some sr, Some ss =>
      if (sr <=? now)%Z && (now <=? ss)%Z then
        let sunrise_safe := (sr + minutes 30)%Z in
        let sunset_safe := (ss - minutes 30)%Z in
        (sunrise_safe <=? now)%Z && (now <=? sunset_safe)%Z
      else false
  | _, _ => false
  end.

Definition daylight (p : Poll) : bool :=
  daylight_block (fst (sun_times (fetched p))) (snd (sun_times (fetched p)))
    (now_dt p).

(** [can_force_run], from the timers left after expiry. *)
Definition can_force_run (cfg : Config) (startup_time : datetime) (p : Poll)
    (run_until cooldown_until : option datetime) : bool :=
  auto_ready startup_time p
  && negb (daylight p)
  && negb (running (now_dt p) run_until)
  && negb (running (now_dt p) cooldown_until)
  && match ambient_temp_c p, ambient_dew_c p with
     | Some t, Some d => (t - d <=? FORCE_RUN_TEMP_DIFF_C cfg)%float
     | _, _ => false
     end.

(** The body of the loop from the state snapshot to the publication of the
    reading (lines 369 to 535); the result is the local [relay_on] the
    reading is logged with. *)
Definition control_step (cfg : Config) (startup_time : datetime) (p : Poll)
  : M bool :=
  snap <- snapshot ;;
  let relay := relay_on snap in
  let manual_target := manual_on snap in
  update_weather (fetched p) ;;
  timers <- get_timers ;;
  run_until <-
    (if due (now_dt p) (fst timers)
     then clear_forced_run ;; ret None
     else ret (fst timers)) ;;
  cooldown_until <-
    (if due (now_dt p) (snd timers)
     then clear_cooldown ;; ret None
     else ret (snd timers)) ;;
  let cooldown_active := running (now_dt p) cooldown_until in
  in_forced_run <-
    (if can_force_run cfg startup_time p run_until cooldown_until
     then
       let run_until' := (now_dt p + FORCE_RUN_DURATION cfg)%Z in
       let cooldown_until' := (run_until' + FORCE_RUN_COOLDOWN cfg)%Z in
       start_forced_run run_until' cooldown_until' ;; ret true
     else ret (running (now_dt p) run_until)) ;;
  relay <-
    match mode snap with
    | manual =>
        if negb (Bool.eqb manual_target relay)
        then set_relay manual_target ;;
             emit (LogEvent manual_target) ;; ret manual_target
        else ret relay
    | auto =>
        if in_forced_run then
          if negb relay
          then set_relay true ;; emit (LogEvent true) ;; ret true
          else ret relay
        else if should_turn_on cfg p && negb relay then
          if daylight p then ret relay
          else if negb (auto_ready startup_time p) then ret relay
          else if cooldown_active then ret relay
          else set_relay true ;; emit (LogEvent true) ;; ret true
        else if should_turn_off cfg p && relay then
          set_relay false ;; emit (LogEvent false) ;; ret false
        else ret relay
    end ;;
  emit (LogReading relay) ;;
  emit (Publish relay (mode snap) manual_target) ;;
  ret relay.

(** The loop variables [last_humidity] and [humidity_spike_pending]. *)
Record Filter : Type := {
  last_humidity : option float;
  humidity_spike_pending : bool
}.

Definition init_filter : Filter :=
  {| last_humidity := None; humidity_spike_pending := false |}.

(** The humidity spike filter at the head of the loop body (lines 340 to
    363): the loop variables after the reading, and whether the reading is
    accepted.  [false] is the [continue]: the reading is dropped and the
    rest of the body skipped. *)
Definition spike_filter (f : Filter) (hum : float) : Filter * bool :=
  match last_humidity f with
  | Some last =>
      let change_pct := abs (hum - last)%float in
      if (15 <? change_pct)%float then
        if negb (humidity_spike_pending f) then
          ({| last_humidity := last_humidity f;
              humidity_spike_pending := true |}, false)
        else
          ({| last_humidity := Some hum; humidity_spike_pending := false |},
           true)
      else
        ({| last_humidity := Some hum; humidity_spike_pending := false |}, true)
  | None =>
      ({| last_humidity := Some hum; humidity_spike_pending := false |}, true)
  end.

(** What [dht_sensor.read()] returned. *)
Inductive SensorResult : Type :=
| Invalid
| Valid (temperature hum : float).

(** How one pass through the loop body ended. *)
Inductive Outcome : Type :=
| ReadFailed                 (* DHT11 read failed *)
| SpikeIgnored               (* humidity spike ignored once *)
| Decided (relay : bool)     (* the body ran to the end *)
| Stopped (e : Py.exn).      (* an exception left the loop *)

(** One pass through the body of [sensor_loop]'s [while].  An exception of
    [dew_point_c] leaves the loop through its [finally], which switches the
    relay off. *)
Definition sensor_cycle (libm_log : float -> float) (cfg : Config)
    (startup_time now : datetime) (w : option Weather.t)
    (f : Filter) (r : SensorResult) : M (Filter * Outcome) :=
  match r with
  | Invalid => ret (f, ReadFailed)
  | Valid t h =>
      let '(f', accepted) := spike_filter f h in
      if accepted then
        match dew_point_c libm_log t h with
        | Py.Ok d =>
            relay <- control_step cfg startup_time
                       {| temp_c := t; humidity := h; dew_c := d;
                          now_dt := now; fetched := w |} ;;
            ret (f', Decided relay)
        | Py.Raise e =>
            set_relay false ;; ret (f', Stopped e)
        end
      else ret (f', SpikeIgnored)
  end.

(** A run of the loop: poll after poll, until the list ends or an
    exception stops the thread. *)
Record Tick : Type := {
  tick_now : datetime;
  tick_weather : option Weather.t;
  tick_sensor : SensorResult
}.

Fixpoint sensor_loop (libm_log : float -> float) (cfg : Config)
    (startup_time : datetime) (f : Filter) (ticks : list Tick)
  : M (Filter * list Outcome) :=
  match ticks with
  | [] => ret (f, [])
  | k :: rest =>
      fo <- sensor_cycle libm_log cfg startup_time (tick_now k)
              (tick_weather k) f (tick_sensor k) ;;
      match snd fo with
      | Stopped e => ret (fst fo, [Stopped e])
      | o =>
          r <- sensor_loop libm_log cfg startup_time (fst fo) rest ;;
          ret (fst r, o :: snd r)
      end
  end.

(** A run of consecutive decisions on already sanitised readings. *)
Fixpoint control_steps (cfg : Config) (startup_time : datetime)
    (ps : list Poll) : M (list bool) :=
  match ps with
  | [] => ret []
  | p :: rest =>
      r <- control_step cfg startup_time p ;;
      rs <- control_steps cfg startup_time rest ;;
      ret (r :: rs)
  end.

(** [api_control], the POST handler of the operator's API. *)
Definition api_control (m : Mode) (target : option bool) : M unit :=
  snap <- snapshot ;;
  match m with
  | auto => set_mode auto None
  | manual =>
      let v := match target with Some b => b | None => manual_on snap end in
      set_mode manual (Some v) ;; set_relay v
  end.

(** ** Closed forms of one decision

    What [control_step] computes, written as functions of the state the
    cycle starts in; [control_step_eq] below proves them equal to the run of
    the code. *)

(** The local [run_until] and [cooldown_until] after the expiry tests. *)
Definition run_until_live (p : Poll) (s : ControllerState) : option datetime :=
  unexpired (now_dt p) (auto_run_until s).

Definition cooldown_until_live (p : Poll) (s : ControllerState)
  : option datetime :=
  unexpired (now_dt p) (auto_cooldown_until s).

(** [can_force_run] as the cycle evaluates it. *)
Definition forced_run_starts (cfg : Config) (startup_time : datetime)
    (p : Poll) (s : ControllerState) : bool :=
  can_force_run cfg startup_time p (run_until_live p s) (cooldown_until_live p s).

(** [in_forced_run] when the mode is tested. *)
Definition in_forced_run (cfg : Config) (startup_time : datetime)
    (p : Poll) (s : ControllerState) : bool :=
  if forced_run_starts cfg startup_time p s then true
  else running (now_dt p) (run_until_live p s).

Definition cooldown_active (p : Poll) (s : ControllerState) : bool :=
  running (now_dt p) (cooldown_until_live p s).

(** The relay state the cycle ends with. *)
Definition relay_command (cfg : Config) (startup_time : datetime)
    (p : Poll) (s : ControllerState) : bool :=
  match mode s with
  | manual => manual_on s
  | auto =>
      if in_forced_run cfg startup_time p s then true
      else if should_turn_on cfg p && negb (relay_on s) then
        negb (daylight p) && auto_ready startup_time p
        && negb (cooldown_active p s)
      else if should_turn_off cfg p && relay_on s then false
      else relay_on s
  end.

Definition timers_after (cfg : Config) (startup_time : datetime)
    (p : Poll) (s : ControllerState) : option datetime * option datetime :=
  if forced_run_starts cfg startup_time p s then
    (Some (now_dt p + FORCE_RUN_DURATION cfg)%Z,
     Some (now_dt p + FORCE_RUN_DURATION cfg + FORCE_RUN_COOLDOWN cfg)%Z)
  else (run_until_live p s, cooldown_until_live p s).

Definition state_after (cfg : Config) (startup_time : datetime)
    (p : Poll) (s : ControllerState) : ControllerState :=
  {| mode := mode s;
     manual_on := manual_on s;
     relay_on := relay_command cfg startup_time p s;
     weather := fetched p;
     auto_run_until := fst (timers_after cfg startup_time p s);
     auto_cooldown_until := snd (timers_after cfg startup_time p s) |}.

Definition trace_after (cfg : Config) (startup_time : datetime)
    (p : Poll) (s : ControllerState) : list Effect :=
  let relay := relay_command cfg startup_time p s in
  (if due (now_dt p) (auto_run_until s) then [ClearForcedRun] else [])
  ++ (if due (now_dt p) (auto_cooldown_until s) then [ClearCooldown] else [])
  ++ (if forced_run_starts cfg startup_time p s
      then [StartForcedRun (now_dt p + FORCE_RUN_DURATION cfg)%Z
              (now_dt p + FORCE_RUN_DURATION cfg + FORCE_RUN_COOLDOWN cfg)%Z]
      else [])
  ++ (if Bool.eqb relay (relay_on s) then []
      else [GpioOutput relay; LogEvent relay])
  ++ [LogReading relay; Publish relay (mode s) (manual_on s)].

(** ** Observations on traces and states *)

(** The levels written to the relay pin, in order. *)
Fixpoint gpio_writes (t : list Effect) : list bool :=
  match t with
  | [] => []
  | GpioOutput v :: rest => v :: gpio_writes rest
  | _ :: rest => gpio_writes rest
  end.

(** The timer pairs passed to [start_forced_run], in order. *)
Fixpoint forced_run_calls (t : list Effect) : list (datetime * datetime) :=
  match t with
  | [] => []
  | StartForcedRun r c :: rest => (r, c) :: forced_run_calls rest
  | _ :: rest => forced_run_calls rest
  end.

(** The invariant on the timer pair. *)
Definition timers_ordered (s : ControllerState) : Prop :=
  match auto_run_until s, auto_cooldown_until s with
  | Some r, Some c => (r <= c)%Z
  | _, _ => True
  end.

(** The states the program can be in: the initial state, a pass through
    the loop body, a request of the operator's API. *)
Inductive reachable (cfg : Config) : ControllerState -> Prop :=
| reach_init : reachable cfg init_state
| reach_cycle : forall libm_log startup now w f r s,
    reachable cfg s ->
    reachable cfg (state_of (sensor_cycle libm_log cfg startup now w f r s))
| reach_step : forall startup p s,
    reachable cfg s ->
    reachable cfg (state_of (control_step cfg startup p s))
| reach_api : forall m target s,
    reachable cfg s ->
    reachable cfg (state_of (api_control m target s)).

(** The hysteresis band of a reading: [threshold_temp] strictly between
    [baseline_dew] and [baseline_dew + HYSTERESIS_C]. *)
Definition in_band (cfg : Config) (p : Poll) : Prop :=
  (baseline_dew p <? threshold_temp cfg p)%float = true
  /\ (threshold_temp cfg p <? baseline_dew p + HYSTERESIS_C cfg)%float = true.

(** A run of automatic cycles, none with a forced run active, each reading
    inside the band.  The condition on a cycle is on the state the cycle
    before it left. *)
Fixpoint band_cycles (cfg : Config) (startup_time : datetime)
    (ps : list Poll) (s : ControllerState) : Prop :=
  match ps with
  | [] => True
  | p :: rest =>
      mode s = auto
      /\ in_forced_run cfg startup_time p s = false
      /\ in_band cfg p
      /\ band_cycles cfg startup_time rest
           (state_of (control_step cfg startup_time p s))
  end.

(** ** Binary64 values that are not positive

    Minus infinity, the negative finite numbers and both zeros: the
    arguments on which [math.log] reports a domain error. *)
Definition SF_nonpos (x : spec_float) : bool :=
  match x with
  | S754_zero _ => true
  | S754_infinity s => s
  | S754_finite s _ _ => s
  | S754_nan => false
  end.

(** ** Sample inputs

    Concrete states and readings on which the statements below are
    evaluated.  Clock times are counted from midnight. *)

Definition clock (h m : Z) : datetime := ((h * 60 + m) * 60 * 1000000)%Z.

(** Ambient air close to saturation (10 C, dew point 8 C), sunrise at 06:00
    and sunset at 18:00. *)
Definition damp_weather : Weather.t := {|
  Weather.temperature_c := Some 10%float;
  Weather.dew_point_c := Some 8%float;
  Weather.sunrise := IsoString (clock 6 0);
  Weather.sunset := IsoString (clock 18 0)
|}.

(** Dry ambient air (25 C, dew point 13 C), same sun times. *)
Definition dry_weather : Weather.t := {|
  Weather.temperature_c := Some 25%float;
  Weather.dew_point_c := Some 13%float;
  Weather.sunrise := IsoString (clock 6 0);
  Weather.sunset := IsoString (clock 18 0)
|}.

(** The operator has asked for the heater: manual mode, target on, relay
    still off, no timer set. *)
Definition manual_request : ControllerState := {|
  mode := manual;
  manual_on := true;
  relay_on := false;
  weather := None;
  auto_run_until := None;
  auto_cooldown_until := None
|}.

(** Manual mode with both timers of an earlier forced run still set. *)
Definition manual_with_timers : ControllerState := {|
  mode := manual;
  manual_on := false;
  relay_on := false;
  weather := None;
  auto_run_until := Some (clock 19 30);
  auto_cooldown_until := Some (clock 20 30)
|}.

(** Automatic mode, heater running, no timer set. *)
Definition auto_heating : ControllerState := {|
  mode := auto;
  manual_on := false;
  relay_on := true;
  weather := None;
  auto_run_until := None;
  auto_cooldown_until := None
|}.

(** Automatic mode, heater off, a forced run started at 06:20 still set:
    it lasts until 06:50, its cooldown until 07:50. *)
Definition auto_forced : ControllerState := {|
  mode := auto;
  manual_on := false;
  relay_on := false;
  weather := None;
  auto_run_until := Some (clock 6 50);
  auto_cooldown_until := Some (clock 7 50)
|}.

(** A cool, damp reading at 06:40, ten minutes into the daylight window. *)
Definition morning_poll : Poll := {|
  temp_c := 10%float;
  humidity := 95%float;
  dew_c := 9.2%float;
  now_dt := clock 6 40;
  fetched := Some damp_weather
|}.

(** A cool, damp evening reading at 20:00. *)
Definition evening_poll : Poll := {|
  temp_c := 10%float;
  humidity := 95%float;
  dew_c := 9.2%float;
  now_dt := clock 20 0;
  fetched := Some damp_weather
|}.

(** The same reading ten minutes after a start of the loop at 20:00. *)
Definition early_poll : Poll := {|
  temp_c := 10%float;
  humidity := 95%float;
  dew_c := 9.2%float;
  now_dt := clock 20 10;
  fetched := Some damp_weather
|}.

(** A reading at noon inside the hysteresis band: threshold 15 C against a
    baseline of 13 C and a switch-off level of 18 C. *)
Definition noon_poll : Poll := {|
  temp_c := 20%float;
  humidity := 60%float;
  dew_c := 12%float;
  now_dt := clock 12 0;
  fetched := Some dry_weather
|}.

(** A warm reading with no weather data: threshold 25 C, far above the
    enclosure's own dew point. *)
Definition warm_poll : Poll := {|
  temp_c := 30%float;
  humidity := 40%float;
  dew_c := 15%float;
  now_dt := clock 20 5;
  fetched := None
|}.

(** A second reading inside the same band: threshold 17 C. *)
Definition noon_poll_warmer : Poll := {|
  temp_c := 22%float;
  humidity := 55%float;
  dew_c := 12.5%float;
  now_dt := clock 12 1;
  fetched := Some dry_weather
|}.

(** The filter after a reading of 50 percent was accepted. *)
Definition settled_filter : Filter :=
  {| last_humidity := Some 50%float; humidity_spike_pending := false |}.

(** The filter after one spike away from 50 percent was ignored. *)
Definition pending_filter : Filter :=
  {| last_humidity := Some 50%float; humidity_spike_pending := true |}.

(** The configuration when the environment sets
    [FORCE_RUN_COOLDOWN_MIN=-10]: [config.py] passes any integer to
    [timedelta]. *)
Definition negative_cooldown_config : Config := {|
  HYSTERESIS_C := 5.0;
  AMBIENT_TEMP_OFFSET_C := 5.0;
  FORCE_RUN_TEMP_DIFF_C := 6.0;
  FORCE_RUN_DURATION := minutes 30;
  FORCE_RUN_COOLDOWN := minutes (-10)
|}.

(** ** [live.py]: [LiveBroker]

    The broker as one thread sees it.  A [queue.Queue(maxsize=5)] is the
    list of its pending items, oldest first; a subscriber's queue object is
    named by a number that [subscribe] never hands out twice. *)

Module Queue.

Definition maxsize : nat := 5.

(** [put_nowait]: [None] is [queue.Full]. *)
Definition put_nowait {A : Type} (q : list A) (x : A) : option (list A) :=
  if (length q <? maxsize)%nat then Some (q ++ [x]) else None.

(** [get_nowait]: [None] is [queue.Empty]. *)
Definition get_nowait {A : Type} (q : list A) : option (A * list A) :=
  match q with
  | [] => None
  | x :: rest => Some (x, rest)
  end.

End Queue.

Record LiveBroker (A : Type) : Type := {
  subscribers : list (nat * list A);
  next_queue : nat
}.

Arguments subscribers {A} _.
Arguments next_queue {A} _.

(** [LiveBroker.__init__] *)
Definition new_broker {A : Type} : LiveBroker A :=
  {| subscribers := []; next_queue := 0 |}.

(** [subscribe]: a new empty queue joins the set; its name is returned. *)
Definition subscribe {A : Type} (b : LiveBroker A) : nat * LiveBroker A :=
  (next_queue b,
   {| subscribers := (next_queue b, []) :: subscribers b;
      next_queue := S (next_queue b) |}).

(** [unsubscribe]: [set.discard], silent when the queue is not in the set. *)
Definition unsubscribe {A : Type} (b : LiveBroker A) (q : nat) : LiveBroker A :=
  {| subscribers :=
       filter (fun e => negb (Nat.eqb (fst e) q)) (subscribers b);
     next_queue := next_queue b |}.

(** The body of [publish]'s loop for one queue: put, and on [Full] drop the
    oldest item and put again; a second [Full] is passed over. *)
Definition deliver {A : Type} (q : list A) (data : A) : list A :=
  match Queue.put_nowait q data with
  | Some q' => q'
  | None =>
      let q1 := match Queue.get_nowait q with
                | Some (_, rest) => rest
                | None => q
                end in
      match Queue.put_nowait q1 data with
      | Some q2 => q2
      | None => q1
      end
  end.

Definition publish {A : Type} (b : LiveBroker A) (data : A) : LiveBroker A :=
  {| subscribers := map (fun e => (fst e, deliver (snd e) data)) (subscribers b);
     next_queue := next_queue b |}.

(** A reader of the stream taking the oldest pending item of its queue
    ([q.get()] in [api_live], once an item is there). *)
Definition take {A : Type} (b : LiveBroker A) (q : nat) : LiveBroker A :=
  {| subscribers :=
       map (fun e =>
              if Nat.eqb (fst e) q
              then (fst e, match Queue.get_nowait (snd e) with
                           | Some (_, rest) => rest
                           | None => snd e
                           end)
              else e)
           (subscribers b);
     next_queue := next_queue b |}.

(** The queue of a subscriber, if it is in the set. *)
Fixpoint pending {A : Type} (subs : list (nat * list A)) (q : nat)
  : option (list A) :=
  match subs with
  | [] => None
  | (k, items) :: rest => if Nat.eqb k q then Some items else pending rest q
  end.

(** What can happen to a broker, and a run of such steps. *)
Inductive BrokerOp (A : Type) : Type :=
| DoSubscribe
| DoUnsubscribe (q : nat)
| DoPublish (data : A)
| DoTake (q : nat).

Arguments DoSubscribe {A}.
Arguments DoUnsubscribe {A} q.
Arguments DoPublish {A} data.
Arguments DoTake {A} q.

Definition broker_step {A : Type} (b : LiveBroker A) (op : BrokerOp A)
  : LiveBroker A :=
  match op with
  | DoSubscribe => snd (subscribe b)
  | DoUnsubscribe q => unsubscribe b q
  | DoPublish data => publish b data
  | DoTake q => take b q
  end.

Definition broker_run {A : Type} (b : LiveBroker A) (ops : list (BrokerOp A))
  : LiveBroker A :=
  fold_left broker_step ops b.

(** Every queue of the set holds at most [maxsize] items. *)
Definition bounded {A : Type} (b : LiveBroker A) : Prop :=
  Forall (fun e => (length (snd e) <= Queue.maxsize)%nat) (subscribers b).

(** The last [n] items of a list. *)
Definition last_items {A : Type} (n : nat) (l : list A) : list A :=
  skipn (length l - n) l.

(** ** [weather.py]: the cache of [AmbientWeatherFetcher] *)

(** [_last_weather] and [_last_fetch]; the clock is [time.monotonic()]. *)
Record AmbientWeatherFetcher : Type := {
  _last_weather : option Weather.t;
  _last_fetch : float
}.

(** [AmbientWeatherFetcher.__init__] *)
Definition new_fetcher : AmbientWeatherFetcher :=
  {| _last_weather := None; _last_fetch := 0 |}.

(** How a call of [_fetch] ends: it raises, or it returns the dictionary
    it built. *)
Inductive FetchOutcome : Type :=
| FetchRaises
| Fetched (w : Weather.t).

(** [get_weather].  [cache_seconds] is [AMBIENT_CACHE_SECONDS], [now] the
    monotonic clock, [outcome] what [_fetch] does if it is called; the third
    component tells whether it was called. *)
Definition get_weather (cache_seconds : float) (now : float)
    (outcome : FetchOutcome) (c : AmbientWeatherFetcher)
  : option Weather.t * AmbientWeatherFetcher * bool :=
  match _last_weather c with
  | Some w =>
      if (now - _last_fetch c <? cache_seconds)%float
      then (Some w, c, false)
      else
        match outcome with
        | FetchRaises => (_last_weather c, c, true)
        | Fetched w' =>
            (Some w', {| _last_weather := Some w'; _last_fetch := now |}, true)
        end
  | None =>
      match outcome with
      | FetchRaises => (_last_weather c, c, true)
      | Fetched w' =>
          (Some w', {| _last_weather := Some w'; _last_fetch := now |}, true)
      end
  end.

(** A run of calls, each with its clock reading and the outcome a fetch
    would have: the values returned, and the fetcher at the end. *)
Fixpoint get_weather_calls (cache_seconds : float)
    (calls : list (float * FetchOutcome)) (c : AmbientWeatherFetcher)
  : list (option Weather.t) * AmbientWeatherFetcher :=
  match calls with
  | [] => ([], c)
  | (now, outcome) :: rest =>
      let '(w, c', _) := get_weather cache_seconds now outcome c in
      let '(ws, c'') := get_weather_calls cache_seconds rest c' in
      (w :: ws, c'')
  end.

(** ** The operator's request and the life of the sensor thread *)

(** The ["mode"] entry of the JSON object posted to [/api/control]:
    absent, one of the two modes, another value that can be hashed (a
    string, a number, a boolean, null), or an array or object, on which the
    membership test [mode not in {"auto", "manual"}] raises [TypeError]. *)
Inductive ModeField : Type :=
| ModeAbsent
| ModeIs (m : Mode)
| ModeOther
| ModeUnhashable.

(** The status of the answer; [Http500] is what Flask sends when an
    exception leaves the handler. *)
Inductive HttpStatus : Type := Http200 | Http400 | Http500.

(** [api_control] for a POST whose payload is a dictionary, from the
    snapshot to the status sent; [target] is the truth value of the
    ["manual_on"] entry when there is one that is not null. *)
Definition api_control_post (mode_field : ModeField) (target : option bool)
  : M HttpStatus :=
  snap <- snapshot ;;
  match mode_field with
  | ModeUnhashable => ret Http500
  | ModeOther => ret Http400
  | ModeAbsent => api_control (mode snap) target ;; ret Http200
  | ModeIs m => api_control m target ;; ret Http200
  end.

(** What [request.get_json(silent=True)] returns: nothing or a value that
    is false in Python (null, false, 0, an empty string, array or object),
    which [or {}] replaces by the empty dictionary; a JSON object with
    entries; or another value that is true, which has no [get] method. *)
Inductive JsonBody : Type :=
| NoBody
| ObjectBody (mode_field : ModeField) (target : option bool)
| OtherBody.

(** [api_control] for a POST, from the body received to the status sent.
    On a body that is no object [payload.get] raises [AttributeError]
    before the state is read. *)
Definition api_control_request (body : JsonBody) : M HttpStatus :=
  match body with
  | NoBody => api_control_post ModeAbsent None
  | ObjectBody mode_field target => api_control_post mode_field target
  | OtherBody => ret Http500
  end.

(** Whether a run of the loop ended by an exception. *)
Definition stopped_by_exception (outcomes : list Outcome) : bool :=
  match last outcomes ReadFailed with
  | Stopped _ => true
  | _ => false
  end.

(** [sensor_loop] from its first line to the end of its [finally]: the
    state's relay flag is reset, the polls run until the stop event or an
    exception, and the relay is switched off on the way out. *)
Definition sensor_thread (libm_log : float -> float) (cfg : Config)
    (startup_time : datetime) (ticks : list Tick)
  : M (Filter * list Outcome) :=
  update_relay false ;;
  r <- sensor_loop libm_log cfg startup_time init_filter ticks ;;
  if stopped_by_exception (snd r) then ret r
  else set_relay false ;; ret r.

(** A reading at 21:00, after the end of a forced run started at 20:00 and
    before the end of its cooldown. *)
Definition late_poll : Poll := {|
  temp_c := 10%float;
  humidity := 95%float;
  dew_c := 9.2%float;
  now_dt := clock 21 0;
  fetched := Some damp_weather
|}.

(** The relay states written to the event log, in order. *)
Fixpoint logged_events (t : list Effect) : list bool :=
  match t with
  | [] => []
  | LogEvent v :: rest => v :: logged_events rest
  | _ :: rest => logged_events rest
  end.

(** The relay states written to the readings log, in order. *)
Fixpoint logged_readings (t : list Effect) : list bool :=
  match t with
  | [] => []
  | LogReading v :: rest => v :: logged_readings rest
  | _ :: rest => logged_readings rest
  end.

(** The spike filter over a run of valid readings: for each humidity,
    whether it was accepted. *)
Fixpoint accepted_flags (f : Filter) (hums : list float) : list bool :=
  match hums with
  | [] => []
  | h :: rest =>
      snd (spike_filter f h) :: accepted_flags (fst (spike_filter f h)) rest
  end.

(** ** [parse_time_range]

    The query parameters [start] and [end] are absent (or empty), not in
    ISO format, or a date; [hours] is absent (or not a number) or a float.
    [hours_delta] is [timedelta(hours=...)], which raises on a NaN or an
    infinite argument. *)
Inductive RangeError : Type :=
| InvalidIso      (* ValueError("Invalid ... value; expected ISO format.") *)
| InvalidHours.   (* the exception of [timedelta] *)

Definition parse_time_range (hours_delta : float -> option timedelta)
    (default_range_hours : float) (now : datetime)
    (start_param end_param : iso_string) (hours_param : option float)
  : RangeError + (datetime * datetime) :=
  let start_dt :=
    match start_param with
    | IsoString t => inr t
    | BadString => inl InvalidIso
    | NoString =>
        let hours :=
          match hours_param with
          | Some h => if (h =? 0)%float then default_range_hours else h
          | None => default_range_hours
          end in
        match hours_delta hours with
        | Some d => inr (now - d)%Z
        | None => inl InvalidHours
        end
    end in
  match start_dt with
  | inl e => inl e
  | inr s =>
      let end_dt :=
        match end_param with
        | IsoString t => inr t
        | BadString => inl InvalidIso
        | NoString => inr now
        end in
      match end_dt with
      | inl e => inl e
      | inr e => if (e <? s)%Z then inr (e, s) else inr (s, e)
      end
  end.

(** ** [weather.py]: [describe_moon_phase] *)

(** The builtins [min] and [max] on two floats: the first argument is kept
    unless the second is strictly smaller (larger). *)
Definition py_min (a b : float) : float := if (b <? a)%float then b else a.
Definition py_max (a b : float) : float := if (a <? b)%float then b else a.

(** [math.pi] *)
Definition math_pi : float := 3.141592653589793%float.

Definition moon_label (phase : float) : string :=
  if (phase <? 0.0625)%float || (0.9375 <=? phase)%float then "New Moon"%string
  else if (phase <? 0.1875)%float then "Waxing Crescent"%string
  else if (phase <? 0.3125)%float then "First Quarter"%string
  else if (phase <? 0.4375)%float then "Waxing Gibbous"%string
  else if (phase <? 0.5625)%float then "Full Moon"%string
  else if (phase <? 0.6875)%float then "Waning Gibbous"%string
  else if (phase <? 0.8125)%float then "Last Quarter"%string
  else "Waning Crescent"%string.

(** [describe_moon_phase]; [libm_cos] is the C library's cosine, which
    [math.cos] calls on the finite argument it gets here. *)
Definition describe_moon_phase (libm_cos : float -> float)
    (value : option float) : option string * option float :=
  match value with
  | None => (None, None)
  | Some v =>
      let phase := py_max 0 (py_min 1 v) in
      let illumination :=
        ((1 - libm_cos (2 * math_pi * phase)) / 2 * 100)%float in
      (Some (moon_label phase), Some illumination)
  end.

(** ** [_FirstImageParser]

    The parser is fed a run of start tags, each with its attributes (a
    value may be missing).  [lower] is [str.lower]. *)
Fixpoint first_src (lower : string -> string)
    (attrs : list (string * option string)) : option string :=
  match attrs with
  | [] => None
  | (attr, value) :: rest =>
      match value with
      | Some v =>
          if String.eqb (lower attr) "src"%string
             && negb (String.eqb v ""%string)
          then Some v
          else first_src lower rest
      | None => first_src lower rest
      end
  end.

(** [handle_starttag], on the parser's [src]. *)
Definition handle_starttag (lower : string -> string) (src : option string)
    (tag : string) (attrs : list (string * option string)) : option string :=
  match src with
  | Some _ => src
  | None =>
      if String.eqb (lower tag) "img"%string
      then first_src lower attrs
      else None
  end.

(** The parser's [src] after the start tags of a document. *)
Definition feed_tags (lower : string -> string) (src : option string)
    (tags : list (string * list (string * option string))) : option string :=
  fold_left (fun acc t => handle_starttag lower acc (fst t) (snd t)) tags src.

(** The start tags of a page whose second [img] tag is the first with a
    source, and one more tag after them. *)
Definition page_tags : list (string * list (string * option string)) :=
  [("a", [("href", Some "x")]); ("img", [("alt", Some "sky")]);
   ("img", [("src", Some ""); ("src", Some "latest.jpg")])]%string.

Definition later_tags : list (string * list (string * option string)) :=
  [("img", [("src", Some "other.jpg")])]%string.

(** ** Facts on binary64 comparisons *)

Lemma SFcompare_swap (x y : spec_float) :
  SFcompare y x = option_map CompOpp (SFcompare x y).
Proof.
  destruct x as [sx | sx | | sx mx ex], y as [sy | sy | | sy my ey];
    try reflexivity; try (destruct sx; reflexivity);
    try (destruct sy; reflexivity);
    try (destruct sx, sy; reflexivity).
  simpl.
  change (PosDef.Pos.compare_cont Eq my mx) with (Pos.compare my mx).
  change (PosDef.Pos.compare_cont Eq mx my) with (Pos.compare mx my).
  rewrite (Z.compare_antisym ex ey), (Pos.compare_antisym mx my).
  destruct sx, sy; try reflexivity;
    destruct (ex ?= ey)%Z; simpl; try reflexivity;
    destruct (mx ?= my)%positive; reflexivity.
Qed.

Lemma SFcompare_refl (x : spec_float) :
  x <> S754_nan -> SFcompare x x = Some Eq.
Proof.
  destruct x as [s | s | | s m e]; intros H; try congruence.
  - reflexivity.
  - destruct s; reflexivity.
  - simpl.
    change (PosDef.Pos.compare_cont Eq m m) with (Pos.compare m m).
    rewrite Z.compare_refl, Pos.compare_refl. destruct s; reflexivity.
Qed.

Lemma ltb_asym (x y : float) :
  (x <? y)%float = true -> (y <? x)%float = false.
Proof.
  rewrite !ltb_spec. unfold SFltb.
  rewrite (SFcompare_swap (Prim2SF x) (Prim2SF y)).
  destruct (SFcompare (Prim2SF x) (Prim2SF y)) as [[ | | ] | ];
    simpl; congruence.
Qed.

Lemma is_nan_spec (x : float) :
  is_nan x = true <-> Prim2SF x = S754_nan.
Proof.
  unfold is_nan. rewrite eqb_spec. unfold SFeqb. split.
  - intros H. destruct (Prim2SF x) eqn:E; try reflexivity;
      rewrite SFcompare_refl in H by congruence; discriminate.
  - intros ->. reflexivity.
Qed.

(** ** The run of the code and its closed form *)

Lemma control_step_eq cfg startup_time p s :
  control_step cfg startup_time p s =
  (relay_command cfg startup_time p s,
   state_after cfg startup_time p s,
   trace_after cfg startup_time p s).
Proof.
  destruct s as [m mo ro w ru cu].
  cbv [control_step relay_command state_after trace_after timers_after
       in_forced_run forced_run_starts cooldown_active run_until_live
       cooldown_until_live unexpired set_relay
       mbind ret emit snapshot update_weather get_timers
       clear_forced_run clear_cooldown start_forced_run update_relay
       mode manual_on relay_on weather auto_run_until auto_cooldown_until
       fst snd].
  destruct (should_turn_on cfg p), (should_turn_off cfg p), (daylight p),
    (auto_ready startup_time p);
    destruct (due (now_dt p) ru), (due (now_dt p) cu);
    match goal with
    | |- context [can_force_run ?a ?b ?c ?d ?e] =>
        destruct (can_force_run a b c d e)
    end;
    cbv [running];
    repeat match goal with
    | |- context [match ?t with Some _ => _ | None => _ end] =>
        destruct t
    | |- context [(?a <? ?b)%Z] => destruct (a <? b)%Z
    end;
    destruct m, mo, ro; reflexivity.
Qed.

Lemma result_of_control_step cfg startup_time p s :
  result_of (control_step cfg startup_time p s)
  = relay_command cfg startup_time p s.
Proof. rewrite control_step_eq. reflexivity. Qed.

Lemma state_of_control_step cfg startup_time p s :
  state_of (control_step cfg startup_time p s)
  = state_after cfg startup_time p s.
Proof. rewrite control_step_eq. reflexivity. Qed.

Lemma trace_of_control_step cfg startup_time p s :
  trace_of (control_step cfg startup_time p s)
  = trace_after cfg startup_time p s.
Proof. rewrite control_step_eq. reflexivity. Qed.

Lemma gpio_writes_app (t1 t2 : list Effect) :
  gpio_writes (t1 ++ t2) = gpio_writes t1 ++ gpio_writes t2.
Proof.
  induction t1 as [ | e t1 IH]; simpl; [reflexivity | ].
  destruct e; simpl; rewrite IH; reflexivity.
Qed.

Lemma forced_run_calls_app (t1 t2 : list Effect) :
  forced_run_calls (t1 ++ t2) = forced_run_calls t1 ++ forced_run_calls t2.
Proof.
  induction t1 as [ | e t1 IH]; simpl; [reflexivity | ].
  destruct e; simpl; rewrite IH; reflexivity.
Qed.

(** The only hardware write of a cycle is the new relay state, and only
    when it differs from the state the cycle started in. *)
Lemma gpio_writes_trace_after cfg startup_time p s :
  gpio_writes (trace_after cfg startup_time p s)
  = if Bool.eqb (relay_command cfg startup_time p s) (relay_on s)
    then [] else [relay_command cfg startup_time p s].
Proof.
  unfold trace_after. rewrite !gpio_writes_app.
  destruct (due (now_dt p) (auto_run_until s)),
    (due (now_dt p) (auto_cooldown_until s)),
    (forced_run_starts cfg startup_time p s),
    (Bool.eqb (relay_command cfg startup_time p s) (relay_on s));
    reflexivity.
Qed.

Lemma forced_run_calls_trace_after cfg startup_time p s :
  forced_run_calls (trace_after cfg startup_time p s)
  = if forced_run_starts cfg startup_time p s
    then [((now_dt p + FORCE_RUN_DURATION cfg)%Z,
           (now_dt p + FORCE_RUN_DURATION cfg + FORCE_RUN_COOLDOWN cfg)%Z)]
    else [].
Proof.
  unfold trace_after. rewrite !forced_run_calls_app.
  destruct (due (now_dt p) (auto_run_until s)),
    (due (now_dt p) (auto_cooldown_until s)),
    (forced_run_starts cfg startup_time p s),
    (Bool.eqb (relay_command cfg startup_time p s) (relay_on s));
    reflexivity.
Qed.

(** Rewrites a statement on a run of [control_step] into one on the closed
    forms. *)
Ltac closed_form :=
  rewrite ?result_of_control_step, ?state_of_control_step,
    ?trace_of_control_step, ?gpio_writes_trace_after,
    ?forced_run_calls_trace_after.

(** A timer that survived the expiry test is still running, and one that
    did not is not. *)
Lemma running_unexpired now t :
  running now (unexpired now t) = running now t.
Proof.
  unfold unexpired, due, running. destruct t as [u | ]; [ | reflexivity].
  destruct (Z.leb_spec u now) as [H | H]; [ | reflexivity].
  symmetry. apply Z.ltb_ge. exact H.
Qed.

(** [can_force_run] needs the warm-up to be over and the daylight block to
    be off. *)
Lemma can_force_run_not_ready cfg startup_time p r c :
  auto_ready startup_time p = false ->
  can_force_run cfg startup_time p r c = false.
Proof. intros H. unfold can_force_run. rewrite H. reflexivity. Qed.

Lemma can_force_run_daylight cfg startup_time p r c :
  daylight p = true -> can_force_run cfg startup_time p r c = false.
Proof.
  intros H. unfold can_force_run. rewrite H.
  destruct (auto_ready startup_time p); reflexivity.
Qed.

(** The daylight block holds strictly inside the window the claim names. *)
Lemma daylight_inside p sr ss :
  sun_times (fetched p) = (Some sr, Some ss) ->
  (sr + minutes 30 < now_dt p)%Z -> (now_dt p < ss - minutes 30)%Z ->
  daylight p = true.
Proof.
  intros E H1 H2. unfold daylight. rewrite E. cbn [fst snd].
  unfold daylight_block, minutes in *.
  replace (sr <=? now_dt p)%Z with true by (symmetry; apply Z.leb_le; lia).
  replace (now_dt p <=? ss)%Z with true by (symmetry; apply Z.leb_le; lia).
  cbn [andb].
  apply andb_true_intro; split; apply Z.leb_le; lia.
Qed.

(** With no forced run starting, an automatic cycle that may not switch the
    relay on keeps an off relay off and switches an on relay off exactly
    when the reading is above the switch-off level. *)
Lemma relay_command_blocked cfg startup_time p s :
  mode s = auto ->
  forced_run_starts cfg startup_time p s = false ->
  daylight p = true \/ auto_ready startup_time p = false ->
  relay_command cfg startup_time p s
  = if running (now_dt p) (auto_run_until s) then true
    else relay_on s && negb (should_turn_off cfg p).
Proof.
  intros Hm Hs Hb. unfold relay_command, in_forced_run.
  rewrite Hm, Hs. unfold run_until_live. rewrite running_unexpired.
  destruct (running (now_dt p) (auto_run_until s)); [reflexivity | ].
  destruct (relay_on s), (should_turn_on cfg p), (should_turn_off cfg p);
    cbn; try reflexivity;
    destruct Hb as [-> | ->]; cbn; try reflexivity;
    destruct (daylight p); reflexivity.
Qed.

(** ** The spike filter inside a cycle *)

Lemma sensor_cycle_filter libm_log cfg startup_time now w f t h s :
  fst (result_of (sensor_cycle libm_log cfg startup_time now w f (Valid t h) s))
  = fst (spike_filter f h).
Proof.
  unfold sensor_cycle.
  destruct (spike_filter f h) as [f' [ | ] ]; [ | reflexivity].
  destruct (dew_point_c libm_log t h) as [d | e].
  - unfold mbind, ret, result_of.
    destruct (control_step cfg startup_time _ s) as [ [b s'] tr].
    reflexivity.
  - reflexivity.
Qed.

Lemma sensor_cycle_rejected libm_log cfg startup_time now w f t h s :
  snd (spike_filter f h) = false ->
  sensor_cycle libm_log cfg startup_time now w f (Valid t h) s
  = ((fst (spike_filter f h), SpikeIgnored), s, []).
Proof.
  unfold sensor_cycle.
  destruct (spike_filter f h) as [f' [ | ] ]; simpl; intros H;
    [discriminate | reflexivity].
Qed.

Lemma sensor_cycle_accepted libm_log cfg startup_time now w f t h s :
  snd (spike_filter f h) = true ->
  snd (result_of
         (sensor_cycle libm_log cfg startup_time now w f (Valid t h) s))
  <> SpikeIgnored.
Proof.
  unfold sensor_cycle.
  destruct (spike_filter f h) as [f' [ | ] ]; simpl; intros H;
    [ | discriminate].
  destruct (dew_point_c libm_log t h) as [d | e].
  - unfold mbind, ret, result_of.
    destruct (control_step cfg startup_time _ s) as [ [b s'] tr].
    simpl. discriminate.
  - simpl. discriminate.
Qed.

(** ** The timer pair *)

Lemma unexpired_cases now t :
  unexpired now t = t \/ unexpired now t = None.
Proof. unfold unexpired. destruct (due now t); auto. Qed.

Lemma timers_ordered_state_after cfg startup_time p s :
  (0 <= FORCE_RUN_COOLDOWN cfg)%Z ->
  timers_ordered s -> timers_ordered (state_after cfg startup_time p s).
Proof.
  intros Hc Hs. unfold timers_ordered, state_after, timers_after in *.
  cbn [auto_run_until auto_cooldown_until].
  destruct (forced_run_starts cfg startup_time p s); cbn [fst snd].
  - lia.
  - unfold run_until_live, cooldown_until_live.
    destruct (unexpired_cases (now_dt p) (auto_run_until s)) as [Er | Er],
      (unexpired_cases (now_dt p) (auto_cooldown_until s)) as [Ec | Ec];
      rewrite Er; try exact I; rewrite Ec; try exact Hs.
    destruct (auto_run_until s); exact I.
Qed.

Lemma timers_ordered_sensor_cycle libm_log cfg startup_time now w f r s :
  (0 <= FORCE_RUN_COOLDOWN cfg)%Z ->
  timers_ordered s ->
  timers_ordered
    (state_of (sensor_cycle libm_log cfg startup_time now w f r s)).
Proof.
  intros Hc Hs. unfold sensor_cycle.
  destruct r as [ | t h]; [exact Hs | ].
  destruct (spike_filter f h) as [f' [ | ] ]; [ | exact Hs].
  destruct (dew_point_c libm_log t h) as [d | e].
  - unfold mbind, ret. rewrite control_step_eq. cbn [state_of fst snd].
    apply timers_ordered_state_after; assumption.
  - exact Hs.
Qed.

Lemma timers_ordered_api_control m target s :
  timers_ordered s -> timers_ordered (state_of (api_control m target s)).
Proof. intros Hs. destruct m; exact Hs. Qed.

(** ** The hysteresis band *)

Lemma in_band_hold cfg p :
  in_band cfg p -> should_turn_on cfg p = false /\ should_turn_off cfg p = false.
Proof.
  intros [H1 H2]. unfold should_turn_on, should_turn_off.
  split; apply ltb_asym; assumption.
Qed.

Lemma relay_command_in_band cfg startup_time p s :
  mode s = auto ->
  in_forced_run cfg startup_time p s = false ->
  in_band cfg p ->
  relay_command cfg startup_time p s = relay_on s.
Proof.
  intros Hm Hf Hb. destruct (in_band_hold cfg p Hb) as [Hon Hoff].
  unfold relay_command. rewrite Hm, Hf, Hon, Hoff. reflexivity.
Qed.

Lemma control_steps_cons cfg startup_time p ps s :
  control_steps cfg startup_time (p :: ps) s
  = (relay_command cfg startup_time p s
       :: result_of (control_steps cfg startup_time ps
                       (state_after cfg startup_time p s)),
     state_of (control_steps cfg startup_time ps
                 (state_after cfg startup_time p s)),
     trace_after cfg startup_time p s
       ++ trace_of (control_steps cfg startup_time ps
                      (state_after cfg startup_time p s))).
Proof.
  cbn [control_steps]. unfold mbind, ret. rewrite control_step_eq.
  destruct (control_steps cfg startup_time ps
              (state_after cfg startup_time p s)) as [ [rs s'] tr].
  cbn [result_of state_of trace_of fst snd]. rewrite app_nil_r. reflexivity.
Qed.

(** ** The sign of a rounded quotient

    Rounding never turns a mantissa that is not negative into a NaN, so the
    quotient of a value that is not positive by a positive finite value is
    again not positive. *)

Section RoundedSign.
Local Open Scope Z_scope.

Lemma shr_1_nonneg mrs : 0 <= shr_m mrs -> 0 <= shr_m (shr_1 mrs).
Proof.
  destruct mrs as [m r s]. simpl.
  destruct m as [ | [q | q | ] | q]; simpl; intros H; lia.
Qed.

Lemma iter_shr_1_nonneg p : forall mrs,
  0 <= shr_m mrs -> 0 <= shr_m (SpecFloat.iter_pos shr_1 p mrs).
Proof.
  induction p as [p IH | p IH | ]; intros mrs H; simpl.
  - apply IH, IH, shr_1_nonneg, H.
  - apply IH, IH, H.
  - apply shr_1_nonneg, H.
Qed.

Lemma shr_nonneg mrs e n : 0 <= shr_m mrs -> 0 <= shr_m (fst (shr mrs e n)).
Proof.
  intros H. destruct n; simpl; try exact H. apply iter_shr_1_nonneg, H.
Qed.

Lemma shr_fexp_nonneg prec emax m e l :
  0 <= m -> 0 <= shr_m (fst (shr_fexp prec emax m e l)).
Proof.
  intros H. unfold shr_fexp. apply shr_nonneg.
  destruct l as [ | [ | | ] ]; exact H.
Qed.

Lemma round_nearest_even_nonneg m l : 0 <= m -> 0 <= round_nearest_even m l.
Proof.
  intros H. destruct l as [ | [ | | ] ]; simpl; try lia.
  destruct (Z.even m); lia.
Qed.

Lemma binary_round_aux_sign prec emax s m e l :
  0 <= m ->
  match binary_round_aux prec emax s m e l with
  | S754_zero s' | S754_infinity s' | S754_finite s' _ _ => s' = s
  | S754_nan => False
  end.
Proof.
  intros H. unfold binary_round_aux.
  pose proof (shr_fexp_nonneg prec emax m e l H) as H1.
  destruct (shr_fexp prec emax m e l) as [mrs' e'].
  cbn [fst] in H1.
  pose proof (shr_fexp_nonneg prec emax _ e' loc_Exact
                (round_nearest_even_nonneg _ (loc_of_shr_record mrs') H1)) as H2.
  destruct (shr_fexp prec emax
              (round_nearest_even (shr_m mrs') (loc_of_shr_record mrs'))
              e' loc_Exact) as [mrs'' e''].
  cbn [fst] in H2.
  destruct (shr_m mrs'') as [ | q | q]; try reflexivity.
  - destruct (e'' <=? emax - prec); reflexivity.
  - lia.
Qed.

Lemma SFdiv_core_nonneg prec emax m1 e1 m2 e2 :
  0 <= fst (fst (SFdiv_core_binary prec emax (Zpos m1) e1 (Zpos m2) e2)).
Proof.
  unfold SFdiv_core_binary.
  set (s := _ - _ - _).
  set (m' := match s with Z0 => _ | Zpos _ => _ | Zneg _ => _ end).
  assert (Hm : 0 <= m').
  { subst m'. destruct s; try lia. apply Z.shiftl_nonneg. lia. }
  pose proof (Z.div_pos m' (Zpos m2) Hm ltac:(lia)) as Hq.
  unfold Z.div in Hq.
  destruct (Z.div_eucl m' (Z.pos m2)) as [q r]. exact Hq.
Qed.

Lemma SFdiv_nonpos prec emax x m e :
  SF_nonpos x = true ->
  SF_nonpos (SFdiv prec emax x (S754_finite false m e)) = true.
Proof.
  destruct x as [s | s | | s mx ex]; simpl; intros H; try discriminate.
  - reflexivity.
  - subst s. reflexivity.
  - subst s.
    pose proof (SFdiv_core_nonneg prec emax mx ex m e) as Hq.
    destruct (SFdiv_core_binary prec emax (Z.pos mx) ex (Z.pos m) e)
      as [ [mz ez] lz].
    cbn [fst] in Hq.
    pose proof (binary_round_aux_sign prec emax true mz ez lz Hq) as Hs.
    cbn [xorb].
    destruct (binary_round_aux prec emax true mz ez lz);
      simpl; try reflexivity; try assumption. contradiction.
Qed.

Lemma leb_zero_nonpos (x : float) :
  (x <=? 0)%float = true -> SF_nonpos (Prim2SF x) = true.
Proof.
  rewrite leb_spec. change (Prim2SF 0) with (S754_zero false).
  unfold SFleb.
  destruct (Prim2SF x) as [s | s | | s m e]; simpl; try reflexivity;
    try discriminate; destruct s; simpl; congruence.
Qed.

Lemma nonpos_not_positive (x : float) :
  SF_nonpos (Prim2SF x) = true ->
  is_nan x = false /\ (0 <? x)%float = false.
Proof.
  intros H. split.
  - destruct (is_nan x) eqn:E; [ | reflexivity].
    apply is_nan_spec in E. rewrite E in H. discriminate.
  - rewrite ltb_spec. change (Prim2SF 0) with (S754_zero false).
    unfold SFltb.
    destruct (Prim2SF x) as [s | s | | s m e]; simpl in *;
      try reflexivity; try discriminate; subst s; reflexivity.
Qed.

Lemma div_100_nonpos (h : float) :
  (h <=? 0)%float = true ->
  is_nan (h / 100) = false /\ (0 <? h / 100)%float = false.
Proof.
  intros H. apply nonpos_not_positive.
  rewrite div_spec.
  change (Prim2SF 100) with (S754_finite false 7036874417766400 (-46)).
  apply SFdiv_nonpos, leb_zero_nonpos, H.
Qed.

End RoundedSign.

(** ** The Magnus formula over the reals *)

Section ExactFacts.
Local Open Scope R_scope.









End ExactFacts.

(** ** [dew_point_c] on floats *)

Lemma math_log_domain_error libm_log x :
  is_nan x = false -> (0 <? x)%float = false ->
  Py.math_log libm_log x = Py.Raise Py.ValueError.
Proof.
  intros Hn Hp. unfold Py.math_log, Py.m_log. rewrite Hn, Hp.
  destruct (is_finite x); reflexivity.
Qed.

(** ** Two polls of the loop, the first one a spike *)

Lemma sensor_loop_one_skip libm_log cfg startup_time f last s k1 k2 t h t' h' :
  last_humidity f = Some last ->
  humidity_spike_pending f = false ->
  (15 <? abs (h - last))%float = true ->
  tick_sensor k1 = Valid t h ->
  tick_sensor k2 = Valid t' h' ->
  let run := sensor_loop libm_log cfg startup_time f [k1; k2] s in
  fst (result_of run)
  = {| last_humidity := Some h'; humidity_spike_pending := false |}
  /\ exists o, snd (result_of run) = [SpikeIgnored; o] /\ o <> SpikeIgnored.
Proof.
  intros Hl Hp Hc E1 E2 run. subst run.
  assert (Hf : spike_filter f h
               = ({| last_humidity := Some last;
                     humidity_spike_pending := true |}, false))
    by (unfold spike_filter; rewrite Hl, Hc, Hp; reflexivity).
  cbn [sensor_loop]. unfold mbind, ret. rewrite E1, E2.
  rewrite (sensor_cycle_rejected libm_log cfg startup_time (tick_now k1)
             (tick_weather k1) f t h s)
    by (rewrite Hf; reflexivity).
  rewrite Hf. cbn [fst snd].
  set (f1 := {| last_humidity := Some last; humidity_spike_pending := true |}).
  assert (Hf1 : spike_filter f1 h'
                = ({| last_humidity := Some h';
                      humidity_spike_pending := false |}, true)).
  { unfold spike_filter, f1. cbn.
    destruct (15 <? abs (h' - last))%float; reflexivity. }
  pose proof (sensor_cycle_filter libm_log cfg startup_time (tick_now k2)
                (tick_weather k2) f1 t' h' s) as Hfst.
  pose proof (sensor_cycle_accepted libm_log cfg startup_time (tick_now k2)
                (tick_weather k2) f1 t' h' s) as Hsnd.
  rewrite Hf1 in Hfst, Hsnd. cbn [fst snd] in Hfst, Hsnd.
  specialize (Hsnd eq_refl).
  destruct (sensor_cycle libm_log cfg startup_time (tick_now k2)
              (tick_weather k2) f1 (Valid t' h') s) as [ [ [f2 o] s2] tr2].
  cbn [result_of fst snd] in Hfst, Hsnd. subst f2.
  destruct o; cbn [result_of fst snd]; split; try reflexivity;
    eexists; (split; [reflexivity | assumption]).
Qed.

(** ** Manual mode *)

(** C1, as stated, fails: a manual-mode cycle calls [start_forced_run] and
    sets both timers when the forecast condition holds (first reading: the
    operator's request at 20:00, an hour after start-up, ambient spread
    2 C), and a manual-mode cycle clears a timer that has run out (second
    reading: a forced run that ended at 19:30). *)
Lemma manual_cycle_touches_timers :
  mode manual_request = manual
  /\ (let r := control_step default_config (clock 19 0) evening_poll
                 manual_request in
      result_of r = true
      /\ forced_run_calls (trace_of r) = [(clock 20 30, clock 21 30)]
      /\ auto_run_until (state_of r) = Some (clock 20 30)
      /\ auto_cooldown_until (state_of r) = Some (clock 21 30))
  /\ mode manual_with_timers = manual
  /\ (let r := control_step default_config (clock 19 0) evening_poll
                 manual_with_timers in
      auto_run_until manual_with_timers = Some (clock 19 30)
      /\ auto_run_until (state_of r) = None
      /\ trace_of r
         = [ClearForcedRun; LogReading false; Publish false manual false]).
Proof. vm_compute. repeat split. Qed.

(** C1, amended: in manual mode the relay command is [manual_target]
    verbatim, the hardware is written only when that differs from the
    current relay state, and the timers are still subject to expiry; on a
    cycle whose forced-run start condition does not hold,
    [start_forced_run] is not called and each timer is either left as it
    was or cleared because it has run out. *)
Theorem manual_cycle cfg startup_time p s :
  mode s = manual ->
  let r := control_step cfg startup_time p s in
  result_of r = manual_on s
  /\ relay_on (state_of r) = manual_on s
  /\ gpio_writes (trace_of r)
     = (if Bool.eqb (manual_on s) (relay_on s) then [] else [manual_on s])
  /\ (forced_run_starts cfg startup_time p s = false ->
      forced_run_calls (trace_of r) = []
      /\ auto_run_until (state_of r)
         = unexpired (now_dt p) (auto_run_until s)
      /\ auto_cooldown_until (state_of r)
         = unexpired (now_dt p) (auto_cooldown_until s)).
Proof.
  intros Hm r. subst r.
  closed_form.
  assert (Hr : relay_command cfg startup_time p s = manual_on s)
    by (unfold relay_command; rewrite Hm; reflexivity).
  cbn [state_after relay_on auto_run_until auto_cooldown_until].
  rewrite Hr. repeat split.
  - rewrite H. reflexivity.
  - unfold timers_after. rewrite H. reflexivity.
  - unfold timers_after. rewrite H. reflexivity.
Qed.

Lemma manual_cycle_witness :
  mode manual_with_timers = manual
  /\ forced_run_starts default_config (clock 20 0) warm_poll
       manual_with_timers = false
  /\ (let r := control_step default_config (clock 20 0) warm_poll
                 manual_with_timers in
      result_of r = false
      /\ relay_on (state_of r) = false
      /\ gpio_writes (trace_of r) = []
      /\ forced_run_calls (trace_of r) = []
      /\ auto_run_until (state_of r) = None
      /\ auto_cooldown_until (state_of r) = Some (clock 20 30)).
Proof.
  destruct (manual_cycle default_config (clock 20 0) warm_poll
              manual_with_timers eq_refl) as (H1 & H2 & H3 & H4).
  destruct (H4 eq_refl) as (H5 & H6 & H7).
  split; [reflexivity | ].
  split; [reflexivity | ].
  split; [exact H1 | ].
  split; [exact H2 | ].
  split; [exact H3 | ].
  split; [exact H5 | ].
  split; [exact H6 | exact H7].
Defined.

(** ** Daylight block *)

(** C2, as stated, fails: inside the blocked window (06:30 to 17:30) an
    automatic cycle leaves a relay that is on switched on when the reading
    is inside the hysteresis band (noon, relay on), and it switches the
    relay on when a forced run started before the window is still active
    (06:40, forced run until 06:50). *)
Lemma daylight_block_leaves_relay_on :
  sun_times (fetched noon_poll) = (Some (clock 6 0), Some (clock 18 0))
  /\ (clock 6 0 + minutes 30 < now_dt noon_poll)%Z
  /\ (now_dt noon_poll < clock 18 0 - minutes 30)%Z
  /\ mode auto_heating = auto /\ relay_on auto_heating = true
  /\ (let r := control_step default_config (clock 6 0) noon_poll
                 auto_heating in
      result_of r = true /\ relay_on (state_of r) = true
      /\ gpio_writes (trace_of r) = [])
  /\ sun_times (fetched morning_poll) = (Some (clock 6 0), Some (clock 18 0))
  /\ (clock 6 0 + minutes 30 < now_dt morning_poll)%Z
  /\ (now_dt morning_poll < clock 18 0 - minutes 30)%Z
  /\ mode auto_forced = auto /\ relay_on auto_forced = false
  /\ (let r := control_step default_config (clock 5 0) morning_poll
                 auto_forced in
      result_of r = true /\ gpio_writes (trace_of r) = [true]).
Proof. vm_compute. repeat split. Qed.

(** C2, amended: in an automatic cycle inside the daylight window no forced
    run starts and the hysteresis logic never switches the relay on; the
    block does not command an on relay off.  The relay command is on while
    a forced run started earlier is active; otherwise an off relay stays
    off and an on relay is switched off only when [threshold_temp] exceeds
    [baseline_dew + HYSTERESIS_C]. *)
Theorem daylight_cycle cfg startup_time p s sr ss :
  mode s = auto ->
  sun_times (fetched p) = (Some sr, Some ss) ->
  (sr + minutes 30 < now_dt p)%Z -> (now_dt p < ss - minutes 30)%Z ->
  let r := control_step cfg startup_time p s in
  forced_run_calls (trace_of r) = []
  /\ result_of r
     = (if running (now_dt p) (auto_run_until s) then true
        else relay_on s && negb (should_turn_off cfg p)).
Proof.
  intros Hm E H1 H2 r. subst r.
  pose proof (daylight_inside p sr ss E H1 H2) as Hd.
  assert (Hs : forced_run_starts cfg startup_time p s = false)
    by (apply can_force_run_daylight; exact Hd).
  closed_form. rewrite Hs.
  split; [reflexivity | ].
  apply relay_command_blocked; auto.
Qed.

Lemma daylight_cycle_witness :
  mode auto_forced = auto
  /\ sun_times (fetched morning_poll) = (Some (clock 6 0), Some (clock 18 0))
  /\ (clock 6 0 + minutes 30 < now_dt morning_poll)%Z
  /\ (now_dt morning_poll < clock 18 0 - minutes 30)%Z
  /\ (let r := control_step default_config (clock 5 0) morning_poll
                 auto_forced in
      forced_run_calls (trace_of r) = [] /\ result_of r = true)
  /\ (let r := control_step default_config (clock 6 0) noon_poll
                 auto_heating in
      forced_run_calls (trace_of r) = [] /\ result_of r = true).
Proof.
  assert (H1 : (clock 6 0 + minutes 30 < now_dt morning_poll)%Z)
    by (vm_compute; reflexivity).
  assert (H2 : (now_dt morning_poll < clock 18 0 - minutes 30)%Z)
    by (vm_compute; reflexivity).
  assert (H3 : (clock 6 0 + minutes 30 < now_dt noon_poll)%Z)
    by (vm_compute; reflexivity).
  assert (H4 : (now_dt noon_poll < clock 18 0 - minutes 30)%Z)
    by (vm_compute; reflexivity).
  pose proof (daylight_cycle default_config (clock 5 0) morning_poll
                auto_forced (clock 6 0) (clock 18 0)
                eq_refl eq_refl H1 H2) as Hmorning.
  pose proof (daylight_cycle default_config (clock 6 0) noon_poll
                auto_heating (clock 6 0) (clock 18 0)
                eq_refl eq_refl H3 H4) as Hnoon.
  split; [reflexivity | ].
  split; [reflexivity | ].
  split; [exact H1 | ].
  split; [exact H2 | ].
  split; [exact Hmorning | exact Hnoon].
Defined.

(** ** Warm-up gate *)

(** C3, as stated, fails: ten minutes after start-up, with every other
    condition of a forced run met (night, no timer set, ambient spread
    2 C), no forced run starts; the same reading taken once fifteen
    minutes have passed starts one. *)
Lemma warm_up_blocks_forced_run :
  mode init_state = auto
  /\ runtime (clock 20 0) early_poll = minutes 10
  /\ (let r := control_step default_config (clock 20 0) early_poll
                 init_state in
      forced_run_calls (trace_of r) = []
      /\ auto_run_until (state_of r) = None
      /\ result_of r = false)
  /\ runtime (clock 19 55) early_poll = minutes 15
  /\ (let r := control_step default_config (clock 19 55) early_poll
                 init_state in
      forced_run_calls (trace_of r) = [(clock 20 40, clock 21 40)]
      /\ result_of r = true).
Proof. vm_compute. repeat split. Qed.

(** C3, amended: the warm-up gate blocks automatic ON transitions and
    forced-run starts alike; it does not block an automatic OFF
    transition.  In an automatic cycle with less than fifteen minutes of
    uptime no forced run starts; unless a forced run started earlier is
    active, an off relay stays off and an on relay is switched off, with
    its hardware write, as soon as [threshold_temp] exceeds
    [baseline_dew + HYSTERESIS_C]. *)
Theorem warm_up_cycle cfg startup_time p s :
  mode s = auto ->
  (runtime startup_time p < minutes 15)%Z ->
  let r := control_step cfg startup_time p s in
  forced_run_calls (trace_of r) = []
  /\ result_of r
     = (if running (now_dt p) (auto_run_until s) then true
        else relay_on s && negb (should_turn_off cfg p))
  /\ (running (now_dt p) (auto_run_until s) = false ->
      relay_on s = true -> should_turn_off cfg p = true ->
      result_of r = false /\ gpio_writes (trace_of r) = [false]).
Proof.
  intros Hm Hu r. subst r.
  assert (Ha : auto_ready startup_time p = false)
    by (unfold auto_ready; apply Z.leb_gt; exact Hu).
  assert (Hs : forced_run_starts cfg startup_time p s = false)
    by (apply can_force_run_not_ready; exact Ha).
  closed_form. rewrite Hs.
  rewrite (relay_command_blocked cfg startup_time p s Hm Hs (or_intror Ha)).
  split; [reflexivity | split; [reflexivity | ] ].
  intros -> -> ->. split; reflexivity.
Qed.

Lemma warm_up_cycle_witness :
  mode auto_heating = auto
  /\ (runtime (clock 20 0) warm_poll < minutes 15)%Z
  /\ should_turn_off default_config warm_poll = true
  /\ (let r := control_step default_config (clock 20 0) warm_poll
                 auto_heating in
      forced_run_calls (trace_of r) = []
      /\ result_of r = false
      /\ gpio_writes (trace_of r) = [false]).
Proof.
  assert (Hu : (runtime (clock 20 0) warm_poll < minutes 15)%Z)
    by (vm_compute; reflexivity).
  destruct (warm_up_cycle default_config (clock 20 0) warm_poll auto_heating
              eq_refl Hu) as (H1 & H2 & H3).
  destruct (H3 eq_refl eq_refl eq_refl) as (H4 & H5).
  split; [reflexivity | ].
  split; [exact Hu | ].
  split; [reflexivity | ].
  split; [exact H1 | ].
  split; [exact H4 | exact H5].
Defined.

(** ** Hardware writes *)

(** C8: a cycle writes to the relay pin only on a transition.  Whatever the
    mode, the writes of one cycle are none when the commanded state equals
    the current [relay_on], and the single commanded level otherwise; the
    state then holds the commanded level. *)
Theorem write_only_on_transition cfg startup_time p s :
  let r := control_step cfg startup_time p s in
  gpio_writes (trace_of r)
  = (if Bool.eqb (result_of r) (relay_on s) then [] else [result_of r])
  /\ relay_on (state_of r) = result_of r.
Proof.
  intros r. subst r.
  closed_form. split; reflexivity.
Qed.

(** ** Humidity spike filter *)

(** C5: with a baseline [last] retained and a reading [h] more than 15
    points away from it,
    - when no spike is pending the whole cycle is skipped: the state is
      left as it was, nothing is written, logged or decided, the baseline
      stays [last] and the spike is marked pending;
    - when a spike is pending the reading is accepted: [h] becomes the
      baseline, pending is cleared and the cycle goes on to its decision;
    - after the one skipped cycle the next reading [h'] is accepted in
      either case: a reading back within 15 points of [last] (the glitch
      is absorbed, the comparison is against the baseline from before the
      glitch), and a reading still more than 15 points away (the
      sustained change is adopted): over two polls of the loop exactly the
      first is skipped. *)
Theorem spike_filter_contract libm_log cfg startup_time now w f t h last s :
  last_humidity f = Some last ->
  (15 <? abs (h - last))%float = true ->
  (humidity_spike_pending f = false ->
   sensor_cycle libm_log cfg startup_time now w f (Valid t h) s
   = (({| last_humidity := Some last; humidity_spike_pending := true |},
       SpikeIgnored), s, [])
   /\ (forall h',
         spike_filter (fst (spike_filter f h)) h'
         = ({| last_humidity := Some h'; humidity_spike_pending := false |},
            true))
   /\ (forall now' w' t' h',
         let run :=
           sensor_loop libm_log cfg startup_time f
             [ {| tick_now := now; tick_weather := w;
                  tick_sensor := Valid t h |};
               {| tick_now := now'; tick_weather := w';
                  tick_sensor := Valid t' h' |} ] s in
         fst (result_of run)
         = {| last_humidity := Some h'; humidity_spike_pending := false |}
         /\ exists o,
              snd (result_of run) = [SpikeIgnored; o] /\ o <> SpikeIgnored))
  /\ (humidity_spike_pending f = true ->
      let r := sensor_cycle libm_log cfg startup_time now w f (Valid t h) s in
      fst (result_of r)
      = {| last_humidity := Some h; humidity_spike_pending := false |}
      /\ snd (result_of r) <> SpikeIgnored).
Proof.
  intros Hl Hc.
  assert (Hno : humidity_spike_pending f = false ->
                spike_filter f h
                = ({| last_humidity := Some last;
                      humidity_spike_pending := true |}, false)).
  { intros Hp. unfold spike_filter. rewrite Hl, Hc, Hp. reflexivity. }
  assert (Hyes : humidity_spike_pending f = true ->
                 spike_filter f h
                 = ({| last_humidity := Some h;
                       humidity_spike_pending := false |}, true)).
  { intros Hp. unfold spike_filter. rewrite Hl, Hc, Hp. reflexivity. }
  split.
  - intros Hp. specialize (Hno Hp). split; [ | split].
    + rewrite sensor_cycle_rejected; rewrite Hno; reflexivity.
    + intros h'. rewrite Hno. unfold spike_filter. cbn.
      destruct (15 <? abs (h' - last))%float; reflexivity.
    + intros now' w' t' h'.
      apply (sensor_loop_one_skip libm_log cfg startup_time f last s
               {| tick_now := now; tick_weather := w;
                  tick_sensor := Valid t h |}
               {| tick_now := now'; tick_weather := w';
                  tick_sensor := Valid t' h' |}
               t h t' h' Hl Hp Hc eq_refl eq_refl).
  - intros Hp r. subst r. specialize (Hyes Hp). split.
    + rewrite sensor_cycle_filter, Hyes. reflexivity.
    + apply sensor_cycle_accepted. rewrite Hyes. reflexivity.
Qed.

Lemma spike_filter_contract_witness :
  last_humidity settled_filter = Some 50%float
  /\ (15 <? abs (80 - 50))%float = true
  /\ sensor_cycle (fun _ => 0%float) default_config (clock 19 0) (clock 20 0)
       None settled_filter (Valid 10 80) init_state
     = ((pending_filter, SpikeIgnored), init_state, [])
  /\ spike_filter pending_filter 52
     = ({| last_humidity := Some 52%float; humidity_spike_pending := false |},
        true)
  /\ spike_filter pending_filter 80
     = ({| last_humidity := Some 80%float; humidity_spike_pending := false |},
        true).
Proof.
  destruct (spike_filter_contract (fun _ => 0%float) default_config
              (clock 19 0) (clock 20 0) None settled_filter 10 80 50
              init_state eq_refl eq_refl) as [H _].
  destruct (H eq_refl) as (H1 & H2 & _).
  split; [reflexivity | ].
  split; [reflexivity | ].
  split; [exact H1 | ].
  split; [exact (H2 52%float) | exact (H2 80%float)].
Defined.

(** ** Timer invariant *)

(** C6, as stated, fails when the configured cooldown is negative:
    [config.py] reads [FORCE_RUN_COOLDOWN_MIN] as any integer, and with -10
    the first forced run (started at 20:00 for 30 minutes) leaves a
    reachable state whose cooldown ends at 20:20, before the run ends at
    20:30. *)
Lemma negative_cooldown_breaks_order :
  reachable negative_cooldown_config
    (state_of (control_step negative_cooldown_config (clock 19 0)
                 evening_poll init_state))
  /\ auto_run_until
       (state_of (control_step negative_cooldown_config (clock 19 0)
                    evening_poll init_state)) = Some (clock 20 30)
  /\ auto_cooldown_until
       (state_of (control_step negative_cooldown_config (clock 19 0)
                    evening_poll init_state)) = Some (clock 20 20)
  /\ ~ timers_ordered
         (state_of (control_step negative_cooldown_config (clock 19 0)
                      evening_poll init_state)).
Proof.
  split; [apply reach_step, reach_init | ].
  split; [reflexivity | ].
  split; [reflexivity | ].
  intros H. vm_compute in H. apply H. reflexivity.
Qed.

(** C6, amended: with a cooldown duration that is not negative (the
    default is 60 minutes), every reachable state that has both timers set
    has [auto_cooldown_until >= auto_run_until]; and every call of
    [start_forced_run] the decision makes passes the cooldown end as the
    run end plus [FORCE_RUN_COOLDOWN], in the one call that sets both. *)
Theorem timers_stay_ordered cfg s :
  (0 <= FORCE_RUN_COOLDOWN cfg)%Z ->
  reachable cfg s ->
  timers_ordered s
  /\ forall startup_time p run_until cooldown_until,
       In (run_until, cooldown_until)
          (forced_run_calls (trace_of (control_step cfg startup_time p s))) ->
       cooldown_until = (run_until + FORCE_RUN_COOLDOWN cfg)%Z
       /\ auto_run_until (state_of (control_step cfg startup_time p s))
          = Some run_until
       /\ auto_cooldown_until (state_of (control_step cfg startup_time p s))
          = Some cooldown_until.
Proof.
  intros Hc Hr. split.
  - induction Hr as [ | lg su now w f r s Hr IH | su p s Hr IH
                      | m target s Hr IH].
    + exact I.
    + apply timers_ordered_sensor_cycle; assumption.
    + rewrite state_of_control_step.
      apply timers_ordered_state_after; assumption.
    + apply timers_ordered_api_control; assumption.
  - intros su p ru cu.
    rewrite trace_of_control_step, state_of_control_step,
      forced_run_calls_trace_after.
    unfold state_after, timers_after.
    cbn [auto_run_until auto_cooldown_until].
    destruct (forced_run_starts cfg su p s); cbn [In fst snd];
      [ | tauto].
    intros [H | [ ] ]. inversion H; subst. repeat split.
Qed.

Lemma timers_stay_ordered_witness :
  (0 <= FORCE_RUN_COOLDOWN default_config)%Z
  /\ auto_run_until
       (state_of (control_step default_config (clock 19 0) evening_poll
                    init_state)) = Some (clock 20 30)
  /\ auto_cooldown_until
       (state_of (control_step default_config (clock 19 0) evening_poll
                    init_state)) = Some (clock 21 30)
  /\ timers_ordered
       (state_of (control_step default_config (clock 19 0) evening_poll
                    init_state)).
Proof.
  assert (Hc : (0 <= FORCE_RUN_COOLDOWN default_config)%Z)
    by (vm_compute; discriminate).
  split; [exact Hc | ].
  split; [reflexivity | ].
  split; [reflexivity | ].
  exact (proj1 (timers_stay_ordered default_config _ Hc
                  (reach_step default_config (clock 19 0) evening_poll
                     init_state (reach_init default_config)))).
Defined.

(** ** Hysteresis band *)

(** C7: over any run of automatic cycles with no forced run active, each
    reading with [threshold_temp] strictly between [baseline_dew] and
    [baseline_dew + HYSTERESIS_C], the relay state never changes: every
    cycle commands the state the run started in, the state holds it at the
    end, and nothing is written to the relay pin. *)
Theorem hysteresis_band_holds cfg startup_time ps s :
  band_cycles cfg startup_time ps s ->
  let r := control_steps cfg startup_time ps s in
  Forall (fun b => b = relay_on s) (result_of r)
  /\ relay_on (state_of r) = relay_on s
  /\ gpio_writes (trace_of r) = [].
Proof.
  revert s. induction ps as [ | p ps IH]; intros s Hb r; subst r.
  - repeat split. constructor.
  - destruct Hb as (Hm & Hf & Hband & Hrest).
    rewrite state_of_control_step in Hrest.
    pose proof (relay_command_in_band cfg startup_time p s Hm Hf Hband)
      as Hcmd.
    assert (Hrel : relay_on (state_after cfg startup_time p s) = relay_on s)
      by exact Hcmd.
    destruct (IH _ Hrest) as (H1 & H2 & H3).
    rewrite Hrel in H1, H2.
    rewrite control_steps_cons.
    cbn [result_of state_of trace_of fst snd].
    repeat split.
    + constructor; assumption.
    + exact H2.
    + rewrite gpio_writes_app, gpio_writes_trace_after, Hcmd, H3.
      rewrite Bool.eqb_reflx. reflexivity.
Qed.

Lemma hysteresis_band_holds_witness :
  band_cycles default_config (clock 6 0)
    [noon_poll; noon_poll_warmer; noon_poll] auto_heating
  /\ (let r := control_steps default_config (clock 6 0)
                 [noon_poll; noon_poll_warmer; noon_poll] auto_heating in
      Forall (fun b => b = relay_on auto_heating) (result_of r)
      /\ relay_on (state_of r) = relay_on auto_heating
      /\ gpio_writes (trace_of r) = []).
Proof.
  assert (Hb : band_cycles default_config (clock 6 0)
                 [noon_poll; noon_poll_warmer; noon_poll] auto_heating)
    by (vm_compute; repeat split).
  split; [exact Hb | ].
  exact (hysteresis_band_holds default_config (clock 6 0) _ auto_heating Hb).
Defined.

(** ** Dew point: rejected inputs *)

(** C4, as stated, fails in its second half: [dew_point_c] has no check of
    its own, and a humidity that is NaN or infinite is not rejected; the
    function returns NaN, whatever the C library's logarithm is. *)
Lemma dew_point_c_returns_nan :
  (forall libm_log, dew_point_c libm_log 20 nan = Py.Ok nan)
  /\ (forall libm_log, dew_point_c libm_log 20 infinity = Py.Ok nan)
  /\ is_nan nan = true.
Proof.
  split; [intros libm_log; vm_compute; reflexivity | ].
  split; [intros libm_log; vm_compute; reflexivity | reflexivity].
Qed.

(** C4, amended: for every input whose humidity is less than or equal to
    zero, [dew_point_c] raises an exception and returns no value: the
    [ValueError] of [math.log], or, when [237.7 + temp_c] is zero, the
    [ZeroDivisionError] of the division evaluated before the logarithm. *)
Theorem dew_point_c_rejects_humidity libm_log temp_c humidity :
  (humidity <=? 0)%float = true ->
  dew_point_c libm_log temp_c humidity
  = Py.Raise (if (237.7 + temp_c =? 0)%float
              then Py.ZeroDivisionError else Py.ValueError).
Proof.
  intros H. unfold dew_point_c, Py.truediv.
  destruct (237.7 + temp_c =? 0)%float; [reflexivity | ].
  cbn [Py.bind].
  destruct (div_100_nonpos humidity H) as [Hn Hp].
  rewrite (math_log_domain_error libm_log _ Hn Hp). reflexivity.
Qed.

Lemma dew_point_c_rejects_humidity_witness :
  (0 <=? 0)%float = true
  /\ (-40 <=? 0)%float = true
  /\ (forall libm_log, dew_point_c libm_log 10 0 = Py.Raise Py.ValueError)
  /\ (forall libm_log, dew_point_c libm_log 10 (-40) = Py.Raise Py.ValueError)
  /\ (forall libm_log,
        dew_point_c libm_log (-237.7) 0 = Py.Raise Py.ZeroDivisionError).
Proof.
  split; [reflexivity | ].
  split; [reflexivity | ].
  split; [ | split]; intros libm_log.
  - exact (dew_point_c_rejects_humidity libm_log 10 0 eq_refl).
  - exact (dew_point_c_rejects_humidity libm_log 10 (-40) eq_refl).
  - exact (dew_point_c_rejects_humidity libm_log (-237.7) 0 eq_refl).
Defined.

(** ** Dew point: the bound by the temperature *)




(** ** Dew point: division by zero *)




(** * Further properties of the code *)

(** ** [LiveBroker] *)

Section Broker.
Context {A : Type}.

Lemma deliver_last_items (q : list A) (data : A) :
  (length q <= Queue.maxsize)%nat ->
  deliver q data = last_items Queue.maxsize (q ++ [data]).
Proof.
  intros H. unfold deliver, Queue.put_nowait, last_items.
  unfold Queue.maxsize in *.
  rewrite length_app. cbn [length].
  destruct (Nat.ltb_spec (length q) 5) as [Hlt | Hge].
  - replace (length q + 1 - 5)%nat with 0%nat by lia.
    reflexivity.
  - assert (E : length q = 5%nat) by lia.
    replace (length q + 1 - 5)%nat with 1%nat by lia.
    destruct q as [ | x rest]; [discriminate E | ].
    cbn [Queue.get_nowait length] in *.
    replace (length rest <? 5)%nat with true
      by (symmetry; apply Nat.ltb_lt; lia).
    reflexivity.
Qed.

Lemma last_items_length (n : nat) (l : list A) :
  (length (last_items n l) <= n)%nat.
Proof. unfold last_items. rewrite length_skipn. lia. Qed.

Lemma deliver_length (q : list A) (data : A) :
  (length q <= Queue.maxsize)%nat ->
  (length (deliver q data) <= Queue.maxsize)%nat.
Proof.
  intros H. rewrite deliver_last_items by exact H. apply last_items_length.
Qed.

Lemma last_items_zero (l : list A) : last_items 0 l = [].
Proof.
  unfold last_items. rewrite Nat.sub_0_r. apply skipn_all.
Qed.

Lemma last_items_app_skip (n : nat) (l : list A) (x : A) :
  last_items n (last_items n l ++ [x]) = last_items n (l ++ [x]).
Proof.
  destruct n as [ | n]; [rewrite !last_items_zero; reflexivity | ].
  unfold last_items. rewrite !length_app, length_skipn. cbn [length].
  destruct (Nat.le_gt_cases (length l) (S n)) as [Hle | Hgt].
  - replace (length l - S n)%nat with 0%nat by lia. cbn [skipn].
    replace (length l - 0)%nat with (length l) by lia. reflexivity.
  - replace (length l - (length l - S n) + 1 - S n)%nat with 1%nat by lia.
    replace (length l + 1 - S n)%nat with (S (length l - S n)) by lia.
    rewrite (skipn_app (S (length l - S n)) l [x]).
    replace (S (length l - S n) - length l)%nat with 0%nat by lia.
    change (skipn 0 [x]) with [x].
    assert (Hs : skipn (length l - S n) l <> [])
      by (intros E; apply (f_equal (@length A)) in E;
          rewrite length_skipn in E; cbn in E; lia).
    destruct (skipn (length l - S n) l) as [ | y rest] eqn:E;
      [congruence | ].
    replace (skipn (S (length l - S n)) l)
      with (skipn 1 (skipn (length l - S n) l))
      by (rewrite skipn_skipn; reflexivity).
    rewrite E. reflexivity.
Qed.

Lemma bounded_step (b : LiveBroker A) (op : BrokerOp A) :
  bounded b -> bounded (broker_step b op).
Proof.
  unfold bounded. intros H. destruct op as [ | q | data | q]; cbn.
  - constructor; [cbn; unfold Queue.maxsize; lia | exact H].
  - apply Forall_forall. intros e He. apply filter_In in He.
    destruct He as [He _]. revert e He. apply Forall_forall. exact H.
  - apply Forall_forall. intros e He. apply in_map_iff in He.
    destruct He as (e0 & <- & He0). cbn.
    apply deliver_length.
    revert e0 He0. apply Forall_forall. exact H.
  - apply Forall_forall. intros e He. apply in_map_iff in He.
    destruct He as (e0 & <- & He0).
    assert (H0 : (length (snd e0) <= Queue.maxsize)%nat)
      by (revert e0 He0; apply Forall_forall; exact H).
    destruct (fst e0 =? q)%nat; [ | exact H0]. cbn.
    unfold Queue.maxsize in *.
    destruct (snd e0) as [ | x rest]; cbn in *; lia.
Qed.

Lemma bounded_run (ops : list (BrokerOp A)) (b : LiveBroker A) :
  bounded b -> bounded (broker_run b ops).
Proof.
  revert b. induction ops as [ | op ops IH]; intros b H; cbn.
  - exact H.
  - apply IH, bounded_step, H.
Qed.

Lemma pending_In (subs : list (nat * list A)) (q : nat) (items : list A) :
  pending subs q = Some items -> In (q, items) subs.
Proof.
  induction subs as [ | [k its] rest IH]; cbn; [discriminate | ].
  destruct (Nat.eqb_spec k q) as [-> | Hne].
  - intros E. injection E as ->. left. reflexivity.
  - intros E. right. apply IH, E.
Qed.

Lemma pending_publish (subs : list (nat * list A)) (data : A) (q : nat) :
  pending (map (fun e => (fst e, deliver (snd e) data)) subs) q
  = option_map (fun items => deliver items data) (pending subs q).
Proof.
  induction subs as [ | [k its] rest IH]; cbn; [reflexivity | ].
  destruct (k =? q)%nat; [reflexivity | exact IH].
Qed.

Lemma pending_unsubscribe (subs : list (nat * list A)) (q q' : nat) :
  pending (filter (fun e => negb (fst e =? q)%nat) subs) q'
  = if (q' =? q)%nat then None else pending subs q'.
Proof.
  induction subs as [ | [k its] rest IH]; cbn.
  - destruct (q' =? q)%nat; reflexivity.
  - destruct (Nat.eqb_spec k q) as [Hkq | Hkq]; cbn; rewrite IH;
      destruct (Nat.eqb_spec q' q) as [Hq | Hq];
      destruct (Nat.eqb_spec k q') as [Hkq' | Hkq'];
      try reflexivity; congruence.
Qed.

End Broker.

Lemma broker_queues_stay_bounded_aux (A : Type) (ops : list (BrokerOp A))
    (q : nat) (items : list A) :
  pending (subscribers (broker_run new_broker ops)) q = Some items ->
  (length items <= Queue.maxsize)%nat.
Proof.
  intros H. apply pending_In in H.
  assert (Hb : bounded (broker_run (@new_broker A) ops))
    by (apply bounded_run; constructor).
  unfold bounded in Hb. rewrite Forall_forall in Hb.
  exact (Hb _ H).
Qed.

(** X1: whatever is done to a broker (subscriptions, cancellations,
    publications, readers taking items), no subscriber's queue ever holds
    more than five items. *)
Theorem broker_queues_stay_bounded (A : Type) (ops : list (BrokerOp A))
    (q : nat) (items : list A) :
  pending (subscribers (broker_run new_broker ops)) q = Some items ->
  (length items <= 5)%nat.
Proof.
  intros H. exact (broker_queues_stay_bounded_aux A ops q items H).
Qed.

Lemma broker_queues_stay_bounded_witness :
  pending
    (subscribers
       (broker_run new_broker
          [DoSubscribe; DoPublish 1%nat; DoPublish 2%nat; DoPublish 3%nat;
           DoPublish 4%nat; DoPublish 5%nat; DoPublish 6%nat;
           DoPublish 7%nat])) 0
  = Some [3; 4; 5; 6; 7]%nat
  /\ (length [3; 4; 5; 6; 7]%nat <= 5)%nat.
Proof.
  split; [reflexivity | ].
  exact (broker_queues_stay_bounded nat
           [DoSubscribe; DoPublish 1%nat; DoPublish 2%nat; DoPublish 3%nat;
            DoPublish 4%nat; DoPublish 5%nat; DoPublish 6%nat;
            DoPublish 7%nat] 0 [3; 4; 5; 6; 7]%nat eq_refl).
Defined.

(** X2: a publication is never lost on the way in: after [publish], the
    item just published is the newest item of every subscriber's queue,
    full or not. *)
Theorem publish_delivers_newest (A : Type) (ops : list (BrokerOp A))
    (data : A) (q : nat) (items : list A) :
  pending (subscribers (publish (broker_run new_broker ops) data)) q
  = Some items ->
  exists older, items = older ++ [data].
Proof.
  cbn [publish subscribers]. rewrite pending_publish.
  destruct (pending (subscribers (broker_run new_broker ops)) q)
    as [items0 | ] eqn:E; cbn; [ | discriminate].
  intros H. injection H as <-.
  pose proof (broker_queues_stay_bounded_aux A ops q items0 E) as Hlen.
  rewrite deliver_last_items by exact Hlen.
  unfold last_items. rewrite length_app. cbn [length].
  rewrite skipn_app. unfold Queue.maxsize in *.
  replace (length items0 + 1 - 5 - length items0)%nat with 0%nat by lia.
  cbn [skipn]. eexists. reflexivity.
Qed.

Lemma publish_delivers_newest_witness :
  pending
    (subscribers
       (publish
          (broker_run new_broker
             [DoSubscribe; DoPublish 1%nat; DoPublish 2%nat; DoPublish 3%nat;
              DoPublish 4%nat; DoPublish 5%nat]) 6%nat)) 0
  = Some [2; 3; 4; 5; 6]%nat
  /\ exists older, [2; 3; 4; 5; 6]%nat = older ++ [6%nat].
Proof.
  split; [reflexivity | ].
  exact (publish_delivers_newest nat
           [DoSubscribe; DoPublish 1%nat; DoPublish 2%nat; DoPublish 3%nat;
            DoPublish 4%nat; DoPublish 5%nat] 6%nat 0 [2; 3; 4; 5; 6]%nat
           eq_refl).
Defined.

Lemma pending_publish_run (A : Type) (ds : list A) :
  forall (b : LiveBroker A) (q : nat) (items0 : list A),
  bounded b ->
  pending (subscribers b) q = Some items0 ->
  pending (subscribers (broker_run b (map DoPublish ds))) q
  = Some (last_items Queue.maxsize (items0 ++ ds)).
Proof.
  induction ds as [ | d ds IH]; intros b q items0 Hb Hq.
  - cbn. rewrite app_nil_r, Hq. f_equal.
    unfold last_items.
    assert (Hin : In (q, items0) (subscribers b)) by (apply pending_In, Hq).
    unfold bounded in Hb. rewrite Forall_forall in Hb.
    specialize (Hb _ Hin). cbn in Hb.
    replace (length items0 - Queue.maxsize)%nat with 0%nat by lia.
    reflexivity.
  - cbn [map broker_run fold_left broker_step].
    assert (Hlen : (length items0 <= Queue.maxsize)%nat).
    { assert (Hin : In (q, items0) (subscribers b))
        by (apply pending_In, Hq).
      unfold bounded in Hb. rewrite Forall_forall in Hb.
      exact (Hb _ Hin). }
    change (fold_left broker_step (map DoPublish ds) (publish b d))
      with (broker_run (publish b d) (map DoPublish ds)).
    rewrite (IH (publish b d) q (deliver items0 d)).
    + rewrite deliver_last_items by exact Hlen.
      f_equal. clear IH.
      replace (items0 ++ d :: ds) with ((items0 ++ [d]) ++ ds)
        by (rewrite <- app_assoc; reflexivity).
      generalize (items0 ++ [d]). intros l.
      revert l. induction ds as [ | x ds IHds]; intros l.
      * rewrite !app_nil_r. unfold last_items at 1.
        pose proof (last_items_length Queue.maxsize l) as Hl.
        replace (length (last_items Queue.maxsize l) - Queue.maxsize)%nat
          with 0%nat by lia.
        reflexivity.
      * replace (last_items Queue.maxsize l ++ x :: ds)
          with ((last_items Queue.maxsize l ++ [x]) ++ ds)
          by (rewrite <- app_assoc; reflexivity).
        replace (l ++ x :: ds) with ((l ++ [x]) ++ ds)
          by (rewrite <- app_assoc; reflexivity).
        rewrite <- (IHds (l ++ [x])).
        rewrite <- (IHds (last_items Queue.maxsize l ++ [x])).
        rewrite last_items_app_skip. reflexivity.
    + exact (bounded_step b (DoPublish d) Hb).
    + cbn [publish subscribers]. rewrite pending_publish, Hq. reflexivity.
Qed.

(** X3: a subscriber that takes nothing holds the five latest of the
    items it was sent, in the order they were published: on a full queue
    each publication drops exactly the oldest item. *)
Theorem subscriber_keeps_latest_five (A : Type) (ops : list (BrokerOp A))
    (ds : list A) (q : nat) (items0 : list A) :
  pending (subscribers (broker_run new_broker ops)) q = Some items0 ->
  pending
    (subscribers (broker_run (broker_run new_broker ops) (map DoPublish ds))) q
  = Some (last_items 5 (items0 ++ ds)).
Proof.
  intros H. apply pending_publish_run; [ | exact H].
  apply bounded_run. constructor.
Qed.

Lemma subscriber_keeps_latest_five_witness :
  pending (subscribers (broker_run new_broker [@DoSubscribe nat])) 0 = Some []
  /\ pending
       (subscribers
          (broker_run (broker_run new_broker [DoSubscribe])
             (map DoPublish [1; 2; 3; 4; 5; 6; 7; 8]%nat))) 0
     = Some [4; 5; 6; 7; 8]%nat.
Proof.
  split; [reflexivity | ].
  exact (subscriber_keeps_latest_five nat [DoSubscribe]
           [1; 2; 3; 4; 5; 6; 7; 8]%nat 0 [] eq_refl).
Defined.

Lemma filter_twice (A : Type) (f : A -> bool) (l : list A) :
  filter f (filter f l) = filter f l.
Proof.
  induction l as [ | x l IH]; cbn; [reflexivity | ].
  destruct (f x) eqn:E; cbn; [rewrite E, IH; reflexivity | exact IH].
Qed.

(** X4: [unsubscribe] removes the queue and nothing else; a second
    [unsubscribe] of the same queue changes nothing (the stream handler
    calls it twice), and a removed queue receives no later publication. *)
Theorem unsubscribe_removes (A : Type) (b : LiveBroker A) (q : nat) :
  pending (subscribers (unsubscribe b q)) q = None
  /\ (forall q', q' <> q ->
        pending (subscribers (unsubscribe b q)) q' = pending (subscribers b) q')
  /\ unsubscribe (unsubscribe b q) q = unsubscribe b q
  /\ (forall data,
        pending (subscribers (publish (unsubscribe b q) data)) q = None).
Proof.
  split; [ | split; [ | split] ].
  - cbn [unsubscribe subscribers]. rewrite pending_unsubscribe.
    rewrite Nat.eqb_refl. reflexivity.
  - intros q' Hq. cbn [unsubscribe subscribers]. rewrite pending_unsubscribe.
    destruct (Nat.eqb_spec q' q); [contradiction | reflexivity].
  - unfold unsubscribe. cbn [subscribers next_queue].
    rewrite filter_twice. reflexivity.
  - intros data. cbn [publish unsubscribe subscribers].
    rewrite pending_publish, pending_unsubscribe, Nat.eqb_refl. reflexivity.
Qed.

(** ** The weather cache *)

Lemma get_weather_keeps (ttl now : float) (outcome : FetchOutcome)
    (c : AmbientWeatherFetcher) :
  _last_weather c <> None ->
  fst (fst (get_weather ttl now outcome c)) <> None
  /\ _last_weather (snd (fst (get_weather ttl now outcome c))) <> None.
Proof.
  intros H. unfold get_weather.
  destruct (_last_weather c) as [w | ] eqn:E; [ | congruence].
  destruct (now - _last_fetch c <? ttl)%float; cbn.
  - rewrite E. split; discriminate.
  - destruct outcome; cbn; rewrite ?E; split; discriminate.
Qed.

Lemma get_weather_calls_keep (ttl : float)
    (calls : list (float * FetchOutcome)) :
  forall c,
  _last_weather c <> None ->
  Forall (fun w => w <> None) (fst (get_weather_calls ttl calls c)).
Proof.
  induction calls as [ | [now outcome] calls IH]; intros c H; cbn.
  - constructor.
  - destruct (get_weather_keeps ttl now outcome c H) as [H1 H2].
    destruct (get_weather ttl now outcome c) as [ [w c'] called].
    cbn in H1, H2. specialize (IH c' H2).
    destruct (get_weather_calls ttl calls c') as [ws c''].
    cbn in *. constructor; assumption.
Qed.

(** X6: once a fetch has succeeded the fetcher never answers [None]
    again: over any run of calls, whatever the clock and however the later
    fetches end, the answers are a run of [None] (before the first
    success) followed by weather only. *)
Theorem weather_is_never_forgotten (ttl : float)
    (calls : list (float * FetchOutcome)) (c : AmbientWeatherFetcher) :
  exists k,
    firstn k (fst (get_weather_calls ttl calls c)) = repeat None k
    /\ Forall (fun w => w <> None)
         (skipn k (fst (get_weather_calls ttl calls c))).
Proof.
  revert c. induction calls as [ | [now outcome] calls IH]; intros c.
  - exists 0%nat. split; [reflexivity | constructor].
  - destruct (_last_weather c) as [w0 | ] eqn:E.
    + exists 0%nat. split; [reflexivity | ].
      apply get_weather_calls_keep. congruence.
    + cbn. unfold get_weather. rewrite E.
      destruct outcome as [ | w'].
      * destruct (IH c) as (k & H1 & H2).
        destruct (get_weather_calls ttl calls c) as [ws c''].
        exists (S k). cbn in *. split; [rewrite H1; reflexivity | exact H2].
      * exists 0%nat. split; [reflexivity | ].
        pose proof (get_weather_calls_keep ttl calls
                      {| _last_weather := Some w'; _last_fetch := now |}
                      ltac:(cbn; discriminate)) as Hk.
        destruct (get_weather_calls ttl calls _) as [ws c''].
        cbn in *. constructor; [discriminate | exact Hk].
Qed.

(** X7: an outage changes nothing: while every fetch raises, each call
    answers what the fetcher held before the outage (weather that may be
    stale, or [None]) and the fetcher is left as it was. *)
Theorem stale_weather_survives_outage (ttl : float)
    (calls : list (float * FetchOutcome)) (c : AmbientWeatherFetcher) :
  Forall (fun call => snd call = FetchRaises) calls ->
  get_weather_calls ttl calls c
  = (map (fun _ => _last_weather c) calls, c).
Proof.
  induction calls as [ | [now outcome] calls IH]; intros H.
  - reflexivity.
  - inversion H as [ | x l Hx Hrest]; subst. cbn in Hx. subst outcome.
    cbn. unfold get_weather.
    destruct (_last_weather c) as [w | ] eqn:E.
    + destruct (now - _last_fetch c <? ttl)%float;
        rewrite ?E, (IH Hrest); reflexivity.
    + rewrite (IH Hrest). reflexivity.
Qed.

Lemma stale_weather_survives_outage_witness :
  get_weather_calls 600
    [(1000%float, FetchRaises); (5000%float, FetchRaises)]
    {| _last_weather := Some damp_weather; _last_fetch := 100 |}
  = ([Some damp_weather; Some damp_weather],
     {| _last_weather := Some damp_weather; _last_fetch := 100 |}).
Proof.
  apply (stale_weather_survives_outage 600
           [(1000%float, FetchRaises); (5000%float, FetchRaises)]
           {| _last_weather := Some damp_weather; _last_fetch := 100 |}).
  repeat constructor.
Defined.

(** X8: within the cache time of a successful fetch no fetch is made:
    calls whose clock is less than [AMBIENT_CACHE_SECONDS] past the fetch
    all answer the weather fetched then, whatever a fetch would have
    returned, and leave the fetcher as it was. *)
Theorem cached_weather_is_served (ttl fetched_at : float) (w : Weather.t)
    (calls : list (float * FetchOutcome)) :
  Forall (fun call => (fst call - fetched_at <? ttl)%float = true) calls ->
  get_weather_calls ttl calls
    {| _last_weather := Some w; _last_fetch := fetched_at |}
  = (map (fun _ => Some w) calls,
     {| _last_weather := Some w; _last_fetch := fetched_at |})
  /\ Forall
       (fun call =>
          snd (get_weather ttl (fst call) (snd call)
                 {| _last_weather := Some w; _last_fetch := fetched_at |})
          = false)
       calls.
Proof.
  induction calls as [ | [now outcome] calls IH]; intros H.
  - split; [reflexivity | constructor].
  - inversion H as [ | x l Hx Hrest]; subst. cbn in Hx.
    destruct (IH Hrest) as [IH1 IH2]. split.
    + cbn. unfold get_weather. cbn. rewrite Hx, IH1. reflexivity.
    + constructor; [ | exact IH2].
      unfold get_weather. cbn. rewrite Hx. reflexivity.
Qed.

Lemma cached_weather_is_served_witness :
  (250 - 100 <? 600)%float = true
  /\ get_weather_calls 600
       [(250%float, Fetched dry_weather); (699%float, FetchRaises)]
       {| _last_weather := Some damp_weather; _last_fetch := 100 |}
     = ([Some damp_weather; Some damp_weather],
        {| _last_weather := Some damp_weather; _last_fetch := 100 |}).
Proof.
  split; [reflexivity | ].
  apply (cached_weather_is_served 600 100 damp_weather
           [(250%float, Fetched dry_weather); (699%float, FetchRaises)]).
  repeat constructor.
Defined.

(** ** Traces of composed computations *)

Lemma last_cons_default (X : Type) (x : X) (l : list X) (d d' : X) :
  last (x :: l) d = last (x :: l) d'.
Proof.
  revert x. induction l as [ | y l IH]; intros x; [reflexivity | ].
  change (last (x :: y :: l) d) with (last (y :: l) d).
  change (last (x :: y :: l) d') with (last (y :: l) d').
  apply IH.
Qed.

Lemma last_app (X : Type) (l1 l2 : list X) (d : X) :
  last (l1 ++ l2) d = last l2 (last l1 d).
Proof.
  destruct l2 as [ | z l2].
  - rewrite app_nil_r. reflexivity.
  - induction l1 as [ | x l1 IH].
    + reflexivity.
    + change ((x :: l1) ++ z :: l2) with (x :: (l1 ++ z :: l2)).
      destruct (l1 ++ z :: l2) as [ | y l] eqn:E.
      * destruct l1; discriminate E.
      * change (last (x :: y :: l) d) with (last (y :: l) d).
        rewrite IH. apply last_cons_default.
Qed.

Lemma mbind_run (X Y : Type) (c : M X) (k : X -> M Y) (s : ControllerState) :
  mbind c k s
  = (result_of (k (result_of (c s)) (state_of (c s))),
     state_of (k (result_of (c s)) (state_of (c s))),
     trace_of (c s) ++ trace_of (k (result_of (c s)) (state_of (c s)))).
Proof.
  unfold mbind, result_of, state_of, trace_of.
  destruct (c s) as [ [a s1] t1]. cbn.
  destruct (k a s1) as [ [b s2] t2]. reflexivity.
Qed.

(** ** The end of the sensor thread *)

Lemma sensor_cycle_stopped libm_log cfg startup_time now w f r s e :
  snd (result_of (sensor_cycle libm_log cfg startup_time now w f r s))
  = Stopped e ->
  relay_on (state_of (sensor_cycle libm_log cfg startup_time now w f r s))
  = false
  /\ trace_of (sensor_cycle libm_log cfg startup_time now w f r s)
     = [GpioOutput false].
Proof.
  unfold sensor_cycle. destruct r as [ | t h]; [discriminate | ].
  destruct (spike_filter f h) as [f' [ | ] ]; [ | discriminate].
  destruct (dew_point_c libm_log t h) as [d | e'].
  - rewrite mbind_run. cbn. discriminate.
  - intros _. split; reflexivity.
Qed.

Lemma stopped_by_exception_cons (o : Outcome) (outs : list Outcome) :
  (forall e, o <> Stopped e) ->
  stopped_by_exception (o :: outs) = true ->
  stopped_by_exception outs = true.
Proof.
  intros Ho. unfold stopped_by_exception.
  destruct outs as [ | o' outs].
  - cbn. destruct o; try discriminate. exfalso. exact (Ho e eq_refl).
  - change (last (o :: o' :: outs) ReadFailed)
      with (last (o' :: outs) ReadFailed).
    trivial.
Qed.

Lemma sensor_loop_cons libm_log cfg startup_time f k rest s :
  sensor_loop libm_log cfg startup_time f (k :: rest) s
  = let c := sensor_cycle libm_log cfg startup_time (tick_now k)
               (tick_weather k) f (tick_sensor k) s in
    match snd (result_of c) with
    | Stopped e => ((fst (result_of c), [Stopped e]), state_of c, trace_of c)
    | o =>
        let r := sensor_loop libm_log cfg startup_time (fst (result_of c))
                   rest (state_of c) in
        ((fst (result_of r), o :: snd (result_of r)), state_of r,
         trace_of c ++ trace_of r)
    end.
Proof.
  cbn [sensor_loop]. rewrite mbind_run. cbv zeta.
  set (c := sensor_cycle libm_log cfg startup_time (tick_now k)
              (tick_weather k) f (tick_sensor k) s).
  destruct (snd (result_of c)) as [ | | b | e];
    try (rewrite mbind_run; cbn [ret result_of state_of trace_of fst snd];
         rewrite app_nil_r; reflexivity).
  cbn [ret result_of state_of trace_of fst snd]. rewrite app_nil_r.
  reflexivity.
Qed.

Lemma sensor_loop_stopped libm_log cfg startup_time (ticks : list Tick) :
  forall f s d,
  stopped_by_exception
    (snd (result_of (sensor_loop libm_log cfg startup_time f ticks s))) = true ->
  relay_on (state_of (sensor_loop libm_log cfg startup_time f ticks s)) = false
  /\ last (gpio_writes
             (trace_of (sensor_loop libm_log cfg startup_time f ticks s))) d
     = false.
Proof.
  induction ticks as [ | k rest IH]; intros f s d.
  - cbn. discriminate.
  - rewrite sensor_loop_cons. cbv zeta.
    pose proof (sensor_cycle_stopped libm_log cfg startup_time (tick_now k)
                  (tick_weather k) f (tick_sensor k) s) as Hstop.
    set (c := sensor_cycle libm_log cfg startup_time (tick_now k)
                (tick_weather k) f (tick_sensor k) s) in *.
    destruct (snd (result_of c)) as [ | | b | e] eqn:E;
      cbn [result_of state_of trace_of fst snd].
    + intros H. apply stopped_by_exception_cons in H; [ | discriminate].
      destruct (IH (fst (result_of c)) (state_of c)
                  (last (gpio_writes (trace_of c)) d) H) as [H1 H2].
      split; [exact H1 | ].
      rewrite gpio_writes_app, last_app. exact H2.
    + intros H. apply stopped_by_exception_cons in H; [ | discriminate].
      destruct (IH (fst (result_of c)) (state_of c)
                  (last (gpio_writes (trace_of c)) d) H) as [H1 H2].
      split; [exact H1 | ].
      rewrite gpio_writes_app, last_app. exact H2.
    + intros H. apply stopped_by_exception_cons in H; [ | discriminate].
      destruct (IH (fst (result_of c)) (state_of c)
                  (last (gpio_writes (trace_of c)) d) H) as [H1 H2].
      split; [exact H1 | ].
      rewrite gpio_writes_app, last_app. exact H2.
    + intros _. destruct (Hstop e eq_refl) as [H1 H2].
      split; [exact H1 | ]. rewrite H2. reflexivity.
Qed.

(** X10: however the sensor thread ends, by the stop event after any
    number of polls or by an exception in one of them, it ends with the
    relay off: the level last written to the relay pin is low and the
    state's [relay_on] is false. *)
Theorem sensor_thread_ends_relay_off libm_log cfg startup_time
    (ticks : list Tick) (s : ControllerState) :
  let r := sensor_thread libm_log cfg startup_time ticks s in
  relay_on (state_of r) = false
  /\ last (gpio_writes (trace_of r)) true = false.
Proof.
  intros r. subst r. unfold sensor_thread.
  rewrite mbind_run.
  set (s0 := state_of (update_relay false s)).
  change (trace_of (update_relay false s)) with (@nil Effect).
  change (result_of (update_relay false s)) with tt. cbn [app].
  rewrite mbind_run.
  set (l := sensor_loop libm_log cfg startup_time init_filter ticks s0).
  destruct (stopped_by_exception (snd (result_of l))) eqn:E.
  - cbn [ret result_of state_of trace_of fst snd]. rewrite app_nil_r.
    exact (sensor_loop_stopped libm_log cfg startup_time ticks init_filter
             s0 true E).
  - rewrite mbind_run. cbn [ret result_of state_of trace_of fst snd].
    rewrite app_nil_r, gpio_writes_app, last_app. split; reflexivity.
Qed.

(** ** A reading the dew point cannot be computed for *)

Lemma dew_point_c_raises libm_log t h :
  (h <=? 0)%float = true -> exists e, dew_point_c libm_log t h = Py.Raise e.
Proof.
  intros H. unfold dew_point_c, Py.truediv.
  destruct (237.7 + t =? 0)%float; [eexists; reflexivity | ].
  cbn [Py.bind].
  destruct (div_100_nonpos h H) as [Hn Hp].
  rewrite (math_log_domain_error libm_log _ Hn Hp).
  eexists. reflexivity.
Qed.

(** X11: a valid sensor reading with a humidity of zero (or below) that
    passes the spike filter ends the loop: [dew_point_c] raises, no
    decision is taken, no later poll runs, and the only effect is the
    relay being switched off on the way out. *)
Theorem humidity_zero_stops_the_loop libm_log cfg startup_time f k rest t h s :
  tick_sensor k = Valid t h ->
  snd (spike_filter f h) = true ->
  (h <=? 0)%float = true ->
  let r := sensor_loop libm_log cfg startup_time f (k :: rest) s in
  (exists e, snd (result_of r) = [Stopped e])
  /\ trace_of r = [GpioOutput false]
  /\ relay_on (state_of r) = false.
Proof.
  intros Hk Hf Hh r. subst r. rewrite sensor_loop_cons. cbv zeta.
  destruct (dew_point_c_raises libm_log t h Hh) as [e He].
  assert (Hc : sensor_cycle libm_log cfg startup_time (tick_now k)
                 (tick_weather k) f (tick_sensor k) s
               = ((fst (spike_filter f h), Stopped e),
                  state_of (set_relay false s), [GpioOutput false])).
  { rewrite Hk. unfold sensor_cycle.
    destruct (spike_filter f h) as [f' acc]. cbn in Hf. subst acc.
    rewrite He. reflexivity. }
  rewrite Hc. cbn [result_of state_of trace_of fst snd].
  split; [exists e; reflexivity | split; reflexivity].
Qed.

Lemma humidity_zero_stops_the_loop_witness :
  snd (spike_filter init_filter 0) = true
  /\ (0 <=? 0)%float = true
  /\ (let r := sensor_loop (fun _ => 0%float) default_config (clock 19 0)
                 init_filter
                 [ {| tick_now := clock 20 0; tick_weather := None;
                      tick_sensor := Valid 10 0 |};
                   {| tick_now := clock 20 1; tick_weather := None;
                      tick_sensor := Valid 10 60 |} ] auto_heating in
      (exists e, snd (result_of r) = [Stopped e])
      /\ trace_of r = [GpioOutput false]
      /\ relay_on (state_of r) = false).
Proof.
  split; [reflexivity | ].
  split; [reflexivity | ].
  exact (humidity_zero_stops_the_loop (fun _ => 0%float) default_config
           (clock 19 0) init_filter
           {| tick_now := clock 20 0; tick_weather := None;
              tick_sensor := Valid 10 0 |}
           [ {| tick_now := clock 20 1; tick_weather := None;
                tick_sensor := Valid 10 60 |} ]
           10 0 auto_heating eq_refl eq_refl eq_refl).
Defined.

(** ** The operator's request *)

(** X12: a request for manual mode writes the requested level to the relay
    pin at once, whether or not the relay is already there, and leaves the
    timers alone; the poll that follows finds the relay where the operator
    put it, commands the same level and writes nothing. *)
Theorem manual_request_then_hold cfg startup_time p (v : bool)
    (s : ControllerState) :
  let r1 := api_control_post (ModeIs manual) (Some v) s in
  let r2 := control_step cfg startup_time p (state_of r1) in
  result_of r1 = Http200
  /\ gpio_writes (trace_of r1) = [v]
  /\ mode (state_of r1) = manual
  /\ manual_on (state_of r1) = v
  /\ relay_on (state_of r1) = v
  /\ auto_run_until (state_of r1) = auto_run_until s
  /\ auto_cooldown_until (state_of r1) = auto_cooldown_until s
  /\ result_of r2 = v
  /\ gpio_writes (trace_of r2) = [].
Proof.
  intros r1 r2. subst r1 r2.
  repeat (split; [reflexivity | ]).
  closed_form. unfold relay_command. cbn.
  split; [reflexivity | ]. rewrite Bool.eqb_reflx. reflexivity.
Qed.

(** X13: a request never touches the timers; a request for automatic mode
    writes nothing to the relay pin and leaves the relay and the manual
    target as they are.  The answer is 400 exactly when the body is an
    object whose mode is a hashable value other than the two modes, and 500
    exactly when an exception leaves the handler: the body is no object, or
    the mode is an array or object.  A request answered 400 or 500 changes
    nothing at all. *)
Theorem request_leaves_timers (body : JsonBody) (s : ControllerState) :
  let r := api_control_request body s in
  auto_run_until (state_of r) = auto_run_until s
  /\ auto_cooldown_until (state_of r) = auto_cooldown_until s
  /\ (forall target, body = ObjectBody (ModeIs auto) target ->
      result_of r = Http200
      /\ trace_of r = [] /\ relay_on (state_of r) = relay_on s
      /\ manual_on (state_of r) = manual_on s /\ mode (state_of r) = auto)
  /\ (result_of r = Http400 <-> exists target, body = ObjectBody ModeOther target)
  /\ (result_of r = Http500 <->
      body = OtherBody \/ exists target, body = ObjectBody ModeUnhashable target)
  /\ (result_of r <> Http200 -> trace_of r = [] /\ state_of r = s).
Proof.
  intros r. subst r.
  destruct body as [ | mode_field target | ]; cbn [api_control_request].
  - destruct (mode s) eqn:E; unfold api_control_post;
      rewrite mbind_run; cbn; rewrite E; cbn;
      (split; [reflexivity | ]); (split; [reflexivity | ]);
      (split; [intros t Ht; discriminate Ht | ]);
      (split; [split; [discriminate | intros [t Ht]; discriminate Ht] | ]);
      (split; [split; [discriminate
                      | intros [Ht | [t Ht] ]; discriminate Ht] | ]);
      intros Hn; exfalso; apply Hn; reflexivity.
  - destruct mode_field as [ | m | | ].
    + destruct (mode s) eqn:E; unfold api_control_post;
        rewrite mbind_run; cbn; rewrite E; cbn;
        (split; [reflexivity | ]); (split; [reflexivity | ]);
        (split; [intros t Ht; discriminate Ht | ]);
        (split; [split; [discriminate | intros [t Ht]; discriminate Ht] | ]);
        (split; [split; [discriminate
                        | intros [Ht | [t Ht] ]; discriminate Ht] | ]);
        intros Hn; exfalso; apply Hn; reflexivity.
    + destruct m; cbn;
        (split; [reflexivity | ]); (split; [reflexivity | ]);
        (split; [intros t Ht; try discriminate Ht; repeat split | ]);
        (split; [split; [discriminate | intros [t Ht]; discriminate Ht] | ]);
        (split; [split; [discriminate
                        | intros [Ht | [t Ht] ]; discriminate Ht] | ]);
        intros Hn; exfalso; apply Hn; reflexivity.
    + cbn.
      split; [reflexivity | ]. split; [reflexivity | ].
      split; [intros t Ht; discriminate Ht | ].
      split; [split; [intros _; exists target; reflexivity | reflexivity] | ].
      split; [split; [discriminate
                     | intros [Ht | [t Ht] ]; discriminate Ht] | ].
      intros _. split; reflexivity.
    + cbn.
      split; [reflexivity | ]. split; [reflexivity | ].
      split; [intros t Ht; discriminate Ht | ].
      split; [split; [discriminate | intros [t Ht]; discriminate Ht] | ].
      split; [split; [intros _; right; exists target; reflexivity
                     | reflexivity] | ].
      intros _. split; reflexivity.
  - cbn.
    split; [reflexivity | ]. split; [reflexivity | ].
    split; [intros t Ht; discriminate Ht | ].
    split; [split; [discriminate | intros [t Ht]; discriminate Ht] | ].
    split; [split; [intros _; left; reflexivity | reflexivity] | ].
    intros _. split; reflexivity.
Qed.

(** ** Forced runs and the cooldown *)

Lemma running_not_due now t : running now t = true -> due now t = false.
Proof.
  unfold running, due. destruct t as [u | ]; [ | discriminate].
  intros H. apply Z.ltb_lt in H. apply Z.leb_gt. exact H.
Qed.

Lemma can_force_run_blocked cfg startup_time p r c :
  running (now_dt p) r = true \/ running (now_dt p) c = true ->
  can_force_run cfg startup_time p r c = false.
Proof.
  intros H. unfold can_force_run.
  destruct (auto_ready startup_time p), (daylight p); cbn;
    try reflexivity.
  destruct H as [-> | ->]; cbn; [reflexivity | ].
  destruct (running (now_dt p) r); reflexivity.
Qed.

Lemma forced_run_starts_blocked cfg startup_time p s :
  running (now_dt p) (auto_run_until s) = true
  \/ running (now_dt p) (auto_cooldown_until s) = true ->
  forced_run_starts cfg startup_time p s = false.
Proof.
  intros H. unfold forced_run_starts, run_until_live, cooldown_until_live.
  apply can_force_run_blocked. rewrite !running_unexpired. exact H.
Qed.

(** X14: in automatic mode an active forced run keeps the heater on
    whatever the reading, the daylight block and the warm-up say, and no
    second forced run starts while it lasts. *)
Theorem forced_run_overrides cfg startup_time p s :
  mode s = auto ->
  running (now_dt p) (auto_run_until s) = true ->
  let r := control_step cfg startup_time p s in
  result_of r = true
  /\ relay_on (state_of r) = true
  /\ forced_run_calls (trace_of r) = []
  /\ auto_run_until (state_of r) = auto_run_until s.
Proof.
  intros Hm Hr r. subst r. closed_form.
  assert (Hs : forced_run_starts cfg startup_time p s = false)
    by (apply forced_run_starts_blocked; left; exact Hr).
  assert (Hc : relay_command cfg startup_time p s = true).
  { unfold relay_command, in_forced_run. rewrite Hm, Hs.
    unfold run_until_live. rewrite running_unexpired, Hr. reflexivity. }
  cbn [state_after relay_on auto_run_until].
  unfold timers_after. rewrite Hs, Hc. cbn [fst].
  unfold run_until_live, unexpired. rewrite (running_not_due _ _ Hr).
  repeat split.
Qed.

Lemma forced_run_overrides_witness :
  mode auto_forced = auto
  /\ running (now_dt morning_poll) (auto_run_until auto_forced) = true
  /\ (let r := control_step default_config (clock 5 0) morning_poll
                 auto_forced in
      result_of r = true
      /\ relay_on (state_of r) = true
      /\ forced_run_calls (trace_of r) = []
      /\ auto_run_until (state_of r) = auto_run_until auto_forced).
Proof.
  split; [reflexivity | ].
  split; [reflexivity | ].
  exact (forced_run_overrides default_config (clock 5 0) morning_poll
           auto_forced eq_refl eq_refl).
Defined.

(** X15: while the cooldown of a finished forced run lasts, automatic mode
    cannot switch the heater on: with the relay off, no forced run active
    and the cooldown timer still ahead, the relay stays off whatever the
    reading, nothing is written and no forced run starts. *)
Theorem cooldown_blocks_heating cfg startup_time p s :
  mode s = auto ->
  relay_on s = false ->
  running (now_dt p) (auto_run_until s) = false ->
  running (now_dt p) (auto_cooldown_until s) = true ->
  let r := control_step cfg startup_time p s in
  result_of r = false
  /\ gpio_writes (trace_of r) = []
  /\ forced_run_calls (trace_of r) = []
  /\ auto_cooldown_until (state_of r) = auto_cooldown_until s.
Proof.
  intros Hm Hoff Hr Hc r. subst r. closed_form.
  assert (Hs : forced_run_starts cfg startup_time p s = false)
    by (apply forced_run_starts_blocked; right; exact Hc).
  assert (Hcmd : relay_command cfg startup_time p s = false).
  { unfold relay_command, in_forced_run, cooldown_active.
    rewrite Hm, Hs, Hoff.
    unfold run_until_live, cooldown_until_live.
    rewrite !running_unexpired, Hr, Hc.
    destruct (should_turn_on cfg p), (should_turn_off cfg p),
      (daylight p), (auto_ready startup_time p); reflexivity. }
  cbn [state_after auto_cooldown_until].
  unfold timers_after. rewrite Hs, Hcmd, Hoff. cbn [snd].
  unfold cooldown_until_live, unexpired. rewrite (running_not_due _ _ Hc).
  repeat split.
Qed.

Lemma cooldown_blocks_heating_witness :
  mode manual_with_timers = manual
  /\ (let s := state_of (set_mode auto None manual_with_timers) in
      mode s = auto /\ relay_on s = false
      /\ running (now_dt evening_poll) (auto_run_until s) = false
      /\ running (now_dt evening_poll) (auto_cooldown_until s) = true
      /\ should_turn_on default_config evening_poll = true
      /\ (let r := control_step default_config (clock 19 0) evening_poll s in
          result_of r = false
          /\ gpio_writes (trace_of r) = []
          /\ forced_run_calls (trace_of r) = []
          /\ auto_cooldown_until (state_of r) = auto_cooldown_until s)).
Proof.
  split; [reflexivity | ].
  cbv zeta.
  split; [reflexivity | ].
  split; [reflexivity | ].
  split; [reflexivity | ].
  split; [reflexivity | ].
  split; [reflexivity | ].
  exact (cooldown_blocks_heating default_config (clock 19 0) evening_poll
           (state_of (set_mode auto None manual_with_timers))
           eq_refl eq_refl eq_refl eq_refl).
Defined.

Lemma unexpired_running now t :
  running now t = true -> unexpired now t = t.
Proof.
  intros H. unfold unexpired. rewrite (running_not_due _ _ H). reflexivity.
Qed.

Lemma no_start_during_cooldown cfg startup_time (c : datetime)
    (ps : list Poll) :
  forall s,
  auto_cooldown_until s = Some c ->
  Forall (fun p => (now_dt p < c)%Z) ps ->
  forced_run_calls (trace_of (control_steps cfg startup_time ps s)) = []
  /\ auto_cooldown_until (state_of (control_steps cfg startup_time ps s))
     = Some c.
Proof.
  induction ps as [ | p ps IH]; intros s Hc Hps.
  - split; [reflexivity | exact Hc].
  - inversion Hps as [ | x l Hp Hrest]; subst.
    assert (Hrun : running (now_dt p) (auto_cooldown_until s) = true)
      by (rewrite Hc; cbn; apply Z.ltb_lt; exact Hp).
    assert (Hs : forced_run_starts cfg startup_time p s = false)
      by (apply forced_run_starts_blocked; right; exact Hrun).
    assert (Hc' : auto_cooldown_until (state_after cfg startup_time p s)
                  = Some c).
    { cbn [state_after auto_cooldown_until]. unfold timers_after.
      rewrite Hs. cbn [snd]. unfold cooldown_until_live.
      rewrite (unexpired_running _ _ Hrun). exact Hc. }
    destruct (IH _ Hc' Hrest) as [IH1 IH2].
    rewrite control_steps_cons. cbn [state_of trace_of fst snd].
    split; [ | exact IH2].
    rewrite forced_run_calls_app, forced_run_calls_trace_after, Hs, IH1.
    reflexivity.
Qed.

(** X16: forced runs are spaced: when a cycle starts a forced run, no
    cycle after it starts another before the cooldown it set,
    [now + FORCE_RUN_DURATION + FORCE_RUN_COOLDOWN], has passed, whatever
    the readings, the weather and the mode. *)
Theorem forced_runs_are_spaced cfg startup_time p0 (ps : list Poll) s :
  forced_run_starts cfg startup_time p0 s = true ->
  Forall
    (fun p =>
       (now_dt p
        < now_dt p0 + FORCE_RUN_DURATION cfg + FORCE_RUN_COOLDOWN cfg)%Z)
    ps ->
  forced_run_calls (trace_of (control_steps cfg startup_time (p0 :: ps) s))
  = [((now_dt p0 + FORCE_RUN_DURATION cfg)%Z,
      (now_dt p0 + FORCE_RUN_DURATION cfg + FORCE_RUN_COOLDOWN cfg)%Z)].
Proof.
  intros Hs Hps. rewrite control_steps_cons. cbn [trace_of snd].
  rewrite forced_run_calls_app, forced_run_calls_trace_after, Hs.
  assert (Hc : auto_cooldown_until (state_after cfg startup_time p0 s)
               = Some (now_dt p0 + FORCE_RUN_DURATION cfg
                       + FORCE_RUN_COOLDOWN cfg)%Z).
  { cbn [state_after auto_cooldown_until]. unfold timers_after.
    rewrite Hs. reflexivity. }
  destruct (no_start_during_cooldown cfg startup_time _ ps _ Hc Hps)
    as [H _].
  rewrite H. reflexivity.
Qed.

Lemma forced_runs_are_spaced_witness :
  forced_run_starts default_config (clock 19 0) evening_poll init_state = true
  /\ forced_run_calls
       (trace_of (control_steps default_config (clock 19 0)
                    [evening_poll; early_poll; late_poll] init_state))
     = [(clock 20 30, clock 21 30)].
Proof.
  split; [reflexivity | ].
  apply (forced_runs_are_spaced default_config (clock 19 0) evening_poll
           [early_poll; late_poll] init_state eq_refl).
  repeat constructor.
Defined.

(** ** Transitions of the relay in automatic mode *)

(** X17: in automatic mode a heater that is on is switched off for one
    reason only: [threshold_temp] above [baseline_dew + HYSTERESIS_C]
    while no forced run is active.  Neither the daylight block, nor the
    warm-up, nor the cooldown, nor the end of a forced run switches it
    off. *)
Theorem auto_off_only_by_hysteresis cfg startup_time p s :
  mode s = auto ->
  relay_on s = true ->
  (result_of (control_step cfg startup_time p s) = false
   <-> should_turn_off cfg p = true
       /\ in_forced_run cfg startup_time p s = false).
Proof.
  intros Hm Hon. closed_form. unfold relay_command. rewrite Hm, Hon.
  destruct (in_forced_run cfg startup_time p s),
    (should_turn_on cfg p), (should_turn_off cfg p); cbn;
    split; try tauto; try discriminate; intros [H1 H2]; discriminate.
Qed.

Lemma auto_off_only_by_hysteresis_witness :
  mode auto_heating = auto /\ relay_on auto_heating = true
  /\ should_turn_off default_config warm_poll = true
  /\ in_forced_run default_config (clock 19 0) warm_poll auto_heating = false
  /\ result_of (control_step default_config (clock 19 0) warm_poll
                  auto_heating) = false.
Proof.
  split; [reflexivity | ].
  split; [reflexivity | ].
  split; [reflexivity | ].
  split; [reflexivity | ].
  apply (auto_off_only_by_hysteresis default_config (clock 19 0) warm_poll
           auto_heating eq_refl eq_refl).
  split; reflexivity.
Defined.

(** X18: in automatic mode a heater that is off is switched on in two
    cases only: a forced run is active or starts in this cycle, or
    [threshold_temp] is below [baseline_dew] with the daylight block off,
    the warm-up over and no cooldown running. *)
Theorem auto_on_conditions cfg startup_time p s :
  mode s = auto ->
  relay_on s = false ->
  (result_of (control_step cfg startup_time p s) = true
   <-> in_forced_run cfg startup_time p s = true
       \/ (should_turn_on cfg p = true
           /\ daylight p = false
           /\ auto_ready startup_time p = true
           /\ cooldown_active p s = false)).
Proof.
  intros Hm Hoff. closed_form. unfold relay_command. rewrite Hm, Hoff.
  destruct (in_forced_run cfg startup_time p s),
    (should_turn_on cfg p), (should_turn_off cfg p), (daylight p),
    (auto_ready startup_time p), (cooldown_active p s); cbn;
    split; try tauto; try discriminate;
    intros [H | (H1 & H2 & H3 & H4)]; discriminate.
Qed.

Lemma auto_on_conditions_witness :
  mode init_state = auto /\ relay_on init_state = false
  /\ in_forced_run default_config (clock 19 0)
       {| temp_c := 10; humidity := 95; dew_c := 9.2;
          now_dt := clock 20 0; fetched := None |} init_state = false
  /\ result_of (control_step default_config (clock 19 0)
                  {| temp_c := 10; humidity := 95; dew_c := 9.2;
                     now_dt := clock 20 0; fetched := None |} init_state)
     = true.
Proof.
  split; [reflexivity | ].
  split; [reflexivity | ].
  split; [reflexivity | ].
  apply (auto_on_conditions default_config (clock 19 0)
           {| temp_c := 10; humidity := 95; dew_c := 9.2;
              now_dt := clock 20 0; fetched := None |}
           init_state eq_refl eq_refl).
  right. repeat split.
Defined.

(** X19: a cycle leaves no stale timer behind: with a forced-run duration
    above zero and a cooldown that is not negative, every timer the state
    holds after a cycle lies strictly after the time of that cycle. *)
Theorem timers_lie_ahead cfg startup_time p s :
  (0 < FORCE_RUN_DURATION cfg)%Z ->
  (0 <= FORCE_RUN_COOLDOWN cfg)%Z ->
  let s' := state_of (control_step cfg startup_time p s) in
  (forall u, auto_run_until s' = Some u -> (now_dt p < u)%Z)
  /\ (forall u, auto_cooldown_until s' = Some u -> (now_dt p < u)%Z).
Proof.
  intros HD HC s'. subst s'. closed_form.
  cbn [state_after auto_run_until auto_cooldown_until].
  unfold timers_after, run_until_live, cooldown_until_live, unexpired, due.
  destruct (forced_run_starts cfg startup_time p s); cbn [fst snd].
  - split; intros u E; injection E as <-; lia.
  - split; intros u.
    + destruct (auto_run_until s) as [t | ]; [ | discriminate].
      destruct (Z.leb_spec t (now_dt p)); [discriminate | ].
      intros E. injection E as <-. assumption.
    + destruct (auto_cooldown_until s) as [t | ]; [ | discriminate].
      destruct (Z.leb_spec t (now_dt p)); [discriminate | ].
      intros E. injection E as <-. assumption.
Qed.

Lemma timers_lie_ahead_witness :
  (0 < FORCE_RUN_DURATION default_config)%Z
  /\ (0 <= FORCE_RUN_COOLDOWN default_config)%Z
  /\ (let s' := state_of (control_step default_config (clock 20 0) warm_poll
                            manual_with_timers) in
      auto_run_until manual_with_timers = Some (clock 19 30)
      /\ auto_run_until s' = None
      /\ auto_cooldown_until s' = Some (clock 20 30)
      /\ (now_dt warm_poll < clock 20 30)%Z).
Proof.
  assert (HD : (0 < FORCE_RUN_DURATION default_config)%Z)
    by (vm_compute; reflexivity).
  assert (HC : (0 <= FORCE_RUN_COOLDOWN default_config)%Z)
    by (vm_compute; discriminate).
  destruct (timers_lie_ahead default_config (clock 20 0) warm_poll
              manual_with_timers HD HC) as [_ H].
  split; [exact HD | ].
  split; [exact HC | ].
  split; [reflexivity | ].
  split; [reflexivity | ].
  split; [reflexivity | ].
  exact (H (clock 20 30) eq_refl).
Defined.

(** ** What the loop leaves to the operator *)

Lemma sensor_cycle_keeps_settings libm_log cfg startup_time now w f r s :
  mode (state_of (sensor_cycle libm_log cfg startup_time now w f r s))
  = mode s
  /\ manual_on (state_of (sensor_cycle libm_log cfg startup_time now w f r s))
     = manual_on s.
Proof.
  unfold sensor_cycle. destruct r as [ | t h]; [split; reflexivity | ].
  destruct (spike_filter f h) as [f' [ | ] ]; [ | split; reflexivity].
  destruct (dew_point_c libm_log t h) as [d | e].
  - rewrite mbind_run. cbn [ret result_of state_of trace_of fst snd].
    rewrite state_of_control_step. split; reflexivity.
  - split; reflexivity.
Qed.

(** X20: the sensor loop never changes what the operator set: over any
    number of polls, whatever they read and however they end, the mode
    and the manual target of the state stay as they were. *)
Theorem loop_keeps_operator_settings libm_log cfg startup_time
    (ticks : list Tick) (f : Filter) (s : ControllerState) :
  let r := sensor_loop libm_log cfg startup_time f ticks s in
  mode (state_of r) = mode s /\ manual_on (state_of r) = manual_on s.
Proof.
  cbv zeta. revert f s.
  induction ticks as [ | k rest IH]; intros f s; [split; reflexivity | ].
  rewrite sensor_loop_cons. cbv zeta.
  destruct (sensor_cycle_keeps_settings libm_log cfg startup_time
              (tick_now k) (tick_weather k) f (tick_sensor k) s) as [H1 H2].
  set (c := sensor_cycle libm_log cfg startup_time (tick_now k)
              (tick_weather k) f (tick_sensor k) s) in *.
  destruct (IH (fst (result_of c)) (state_of c)) as [H3 H4].
  destruct (snd (result_of c)); cbn [state_of fst snd];
    split; congruence.
Qed.

(** ** The logs *)

Lemma logged_events_app (t1 t2 : list Effect) :
  logged_events (t1 ++ t2) = logged_events t1 ++ logged_events t2.
Proof.
  induction t1 as [ | e t1 IH]; simpl; [reflexivity | ].
  destruct e; simpl; rewrite IH; reflexivity.
Qed.

Lemma logged_readings_app (t1 t2 : list Effect) :
  logged_readings (t1 ++ t2) = logged_readings t1 ++ logged_readings t2.
Proof.
  induction t1 as [ | e t1 IH]; simpl; [reflexivity | ].
  destruct e; simpl; rewrite IH; reflexivity.
Qed.

Lemma logs_of_trace_after cfg startup_time p s :
  logged_events (trace_after cfg startup_time p s)
  = gpio_writes (trace_after cfg startup_time p s)
  /\ logged_readings (trace_after cfg startup_time p s)
     = [relay_command cfg startup_time p s].
Proof.
  unfold trace_after.
  rewrite !logged_events_app, !gpio_writes_app, !logged_readings_app.
  destruct (due (now_dt p) (auto_run_until s)),
    (due (now_dt p) (auto_cooldown_until s)),
    (forced_run_starts cfg startup_time p s),
    (Bool.eqb (relay_command cfg startup_time p s) (relay_on s));
    split; reflexivity.
Qed.

(** X21: over any run of decisions the event log and the relay pin tell
    the same story: an event is logged for every hardware write, with the
    level written, and for nothing else; and every decision logs exactly
    one reading, with the relay state it commanded. *)
Theorem event_log_matches_writes cfg startup_time (ps : list Poll)
    (s : ControllerState) :
  let r := control_steps cfg startup_time ps s in
  logged_events (trace_of r) = gpio_writes (trace_of r)
  /\ logged_readings (trace_of r) = result_of r.
Proof.
  cbv zeta. revert s.
  induction ps as [ | p ps IH]; intros s; [split; reflexivity | ].
  rewrite control_steps_cons. cbn [result_of trace_of fst snd].
  destruct (IH (state_after cfg startup_time p s)) as [IH1 IH2].
  destruct (logs_of_trace_after cfg startup_time p s) as [H1 H2].
  rewrite logged_events_app, gpio_writes_app, logged_readings_app.
  rewrite IH1, IH2, H1, H2. split; reflexivity.
Qed.

(** ** The spike filter over a run of readings *)

Lemma rejected_sets_pending (f : Filter) (h : float) :
  snd (spike_filter f h) = false ->
  humidity_spike_pending (fst (spike_filter f h)) = true.
Proof.
  unfold spike_filter. destruct (last_humidity f) as [l | ]; cbn;
    [ | discriminate].
  destruct (15 <? abs (h - l))%float; cbn; [ | discriminate].
  destruct (humidity_spike_pending f); cbn; [discriminate | reflexivity].
Qed.

Lemma pending_accepts (f : Filter) (h : float) :
  humidity_spike_pending f = true -> snd (spike_filter f h) = true.
Proof.
  intros H. unfold spike_filter. rewrite H.
  destruct (last_humidity f) as [l | ]; cbn; [ | reflexivity].
  destruct (15 <? abs (h - l))%float; reflexivity.
Qed.

(** X22: the filter never drops two readings in a row: in any run of
    valid readings, from any filter state, a reading that is ignored is
    followed by one that is accepted; and the first reading of a fresh
    loop is always accepted. *)
Theorem never_two_spikes_in_a_row (f : Filter) (hums : list float) (i : nat) :
  (nth i (accepted_flags f hums) true = false ->
   nth (S i) (accepted_flags f hums) true = true)
  /\ nth 0 (accepted_flags init_filter hums) true = true.
Proof.
  split.
  - revert f i. induction hums as [ | h rest IH]; intros f i.
    + destruct i; discriminate.
    + destruct i as [ | i].
      * cbn [accepted_flags nth]. intros H.
        destruct rest as [ | h' rest]; [reflexivity | ].
        cbn [accepted_flags nth].
        apply pending_accepts, rejected_sets_pending, H.
      * cbn [accepted_flags nth]. apply IH.
  - destruct hums; reflexivity.
Qed.

(** ** The time range of a readings request *)

(** X23: whenever [parse_time_range] returns a range, its start is not
    after its end: parameters given in reverse order are swapped, not
    rejected. *)
Theorem parse_time_range_ordered hours_delta default_range_hours now
    start_param end_param hours_param (s e : datetime) :
  parse_time_range hours_delta default_range_hours now
    start_param end_param hours_param = inr (s, e) ->
  (s <= e)%Z.
Proof.
  unfold parse_time_range.
  destruct start_param as [ | | a]; try discriminate.
  - destruct (hours_delta _) as [d | ]; [ | discriminate].
    destruct end_param as [ | | b]; try discriminate.
    + destruct (Z.ltb_spec now (now - d)); intros E; injection E as <- <-; lia.
    + destruct (Z.ltb_spec b (now - d)); intros E; injection E as <- <-; lia.
  - destruct end_param as [ | | b]; try discriminate.
    + destruct (Z.ltb_spec now a); intros E; injection E as <- <-; lia.
    + destruct (Z.ltb_spec b a); intros E; injection E as <- <-; lia.
Qed.

Lemma parse_time_range_ordered_witness :
  parse_time_range (fun _ => None) 6 (clock 12 0)
    (IsoString (clock 11 0)) (IsoString (clock 9 0)) None
  = inr (clock 9 0, clock 11 0)
  /\ (clock 9 0 <= clock 11 0)%Z.
Proof.
  split; [reflexivity | ].
  exact (parse_time_range_ordered (fun _ => None) 6 (clock 12 0)
           (IsoString (clock 11 0)) (IsoString (clock 9 0)) None
           (clock 9 0) (clock 11 0) eq_refl).
Defined.

(** ** The moon phase label *)

Lemma leb_not_ltb (x y : float) :
  (x <=? y)%float = true -> (y <? x)%float = false.
Proof.
  rewrite leb_spec, ltb_spec. unfold SFleb, SFltb.
  rewrite (SFcompare_swap (Prim2SF x) (Prim2SF y)).
  destruct (SFcompare (Prim2SF x) (Prim2SF y)) as [ [ | | ] | ];
    simpl; congruence.
Qed.

Lemma nonpos_below_one (v : float) :
  (v <=? 0)%float = true -> (v <? 1)%float = true.
Proof.
  intros H. apply leb_zero_nonpos in H. rewrite ltb_spec.
  change (Prim2SF 1) with (S754_finite false 4503599627370496 (-52)).
  unfold SFltb.
  destruct (Prim2SF v) as [s | s | | s m e]; cbn [SF_nonpos] in H;
    try discriminate H; try (subst s); reflexivity.
Qed.

Lemma nan_not_below (v x : float) :
  is_nan v = true -> (v <? x)%float = false.
Proof.
  intros H. apply is_nan_spec in H. rewrite ltb_spec, H. reflexivity.
Qed.

(** X24: a phase fraction outside the unit interval is clamped, and both
    ends of the cycle are the new moon: for every value that is zero or
    below, one or above, or NaN, the label is "New Moon". *)
Theorem moon_phase_clamped libm_cos (v : float) :
  (v <=? 0)%float = true \/ (1 <=? v)%float = true \/ is_nan v = true ->
  fst (describe_moon_phase libm_cos (Some v)) = Some "New Moon"%string.
Proof.
  intros H. cbn [describe_moon_phase fst]. f_equal.
  assert (Hp : py_max 0 (py_min 1 v) = 0%float
               \/ py_max 0 (py_min 1 v) = 1%float).
  { unfold py_min, py_max. destruct H as [H | [H | H] ].
    - rewrite (nonpos_below_one v H).
      destruct (nonpos_not_positive v (leb_zero_nonpos v H)) as [_ Hz].
      rewrite Hz. left. reflexivity.
    - rewrite (leb_not_ltb 1 v H). right. reflexivity.
    - rewrite (nan_not_below v 1 H). right. reflexivity. }
  destruct Hp as [-> | ->]; reflexivity.
Qed.

Lemma moon_phase_clamped_witness :
  (-3 <=? 0)%float = true /\ (1 <=? 7.5)%float = true /\ is_nan nan = true
  /\ fst (describe_moon_phase (fun _ => 1%float) (Some (-3)%float))
     = Some "New Moon"%string
  /\ fst (describe_moon_phase (fun _ => 1%float) (Some 7.5%float))
     = Some "New Moon"%string
  /\ fst (describe_moon_phase (fun _ => 1%float) (Some nan))
     = Some "New Moon"%string.
Proof.
  split; [reflexivity | ].
  split; [reflexivity | ].
  split; [reflexivity | ].
  split; [ | split].
  - exact (moon_phase_clamped (fun _ => 1%float) (-3)
             (or_introl eq_refl)).
  - exact (moon_phase_clamped (fun _ => 1%float) 7.5
             (or_intror (or_introl eq_refl))).
  - exact (moon_phase_clamped (fun _ => 1%float) nan
             (or_intror (or_intror eq_refl))).
Defined.

(** ** The first image of a page *)

Lemma first_src_nonempty lower attrs v :
  first_src lower attrs = Some v -> v <> ""%string.
Proof.
  induction attrs as [ | [attr value] rest IH]; cbn; [discriminate | ].
  destruct value as [u | ]; [ | exact IH].
  destruct (String.eqb (lower attr) "src"); cbn; [ | exact IH].
  destruct (String.eqb_spec u ""%string) as [E | E]; cbn; [exact IH | ].
  intros H. injection H as <-. exact E.
Qed.

Lemma feed_tags_found lower tags v :
  feed_tags lower (Some v) tags = Some v.
Proof.
  induction tags as [ | t tags IH]; [reflexivity | exact IH].
Qed.

Lemma feed_tags_nonempty lower tags :
  forall src v,
  (forall u, src = Some u -> u <> ""%string) ->
  feed_tags lower src tags = Some v -> v <> ""%string.
Proof.
  induction tags as [ | [tag attrs] tags IH]; intros src v Hsrc.
  - cbn. intros H. exact (Hsrc v H).
  - cbn [feed_tags fold_left fst snd].
    apply (IH (handle_starttag lower src tag attrs) v).
    intros u. unfold handle_starttag. destruct src as [w | ].
    + exact (Hsrc u).
    + destruct (String.eqb (lower tag) "img"); [ | discriminate].
      apply first_src_nonempty.
Qed.

(** X25: the first image wins: once the tags fed so far have yielded an
    image source, no later tag replaces it; and a source that was found is
    never the empty string (an [img] tag with an empty or missing [src] is
    passed over). *)
Theorem first_image_wins lower
    (tags more : list (string * list (string * option string))) (v : string) :
  feed_tags lower None tags = Some v ->
  feed_tags lower None (tags ++ more) = Some v /\ v <> ""%string.
Proof.
  intros H. split.
  - unfold feed_tags in *. rewrite fold_left_app, H.
    apply feed_tags_found.
  - apply (feed_tags_nonempty lower tags None v); [discriminate | exact H].
Qed.

Lemma first_image_wins_witness :
  feed_tags (fun s => s) None page_tags = Some "latest.jpg"%string
  /\ feed_tags (fun s => s) None (page_tags ++ later_tags)
     = Some "latest.jpg"%string
  /\ "latest.jpg"%string <> ""%string.
Proof.
  split; [reflexivity | ].
  exact (first_image_wins (fun s => s) page_tags later_tags
           "latest.jpg"%string eq_refl).
Defined.
